(** * CoastGuardAI: hybrid risk fusion and community-observation scoring

    A shallow embedding of [engine.py] (the hybrid risk formula) and of
    [community_reports.py] (the observation store, the validator and the
    traditional-knowledge aggregator), with the properties of the
    specification stated over it; then of the code around them
    ([validation.py], and the parts of [routing.py], [vessels.py] and
    [cyclone.py] that do not go through trigonometry), with properties read
    off that code.

    Numbers.  Python floats are idealised as exact rationals ([Q]): every
    literal of the source is the rational it denotes, [+ - * /] are the exact
    operations, [min]/[max] are [Qmin]/[Qmax], and [round(x, n)] is rounding
    to [n] decimals with ties going to the even neighbour.  Where a function
    takes any Python value, [float('inf')] and [float('nan')] are values too,
    with the comparisons Python gives them.  SQLite INTEGER columns are [Z],
    TEXT columns are [string], and timestamps are compared as text, as
    SQLite compares them. *)

From Stdlib Require Import QArith Qminmax Qround Qabs Lqa ZArith String Ascii.
From stdpp Require Import gmap strings list fin_maps pretty.

Local Open Scope Q_scope.

(** ** Python's [round] on exact rationals *)

Module PyNum.

(** Nearest integer, ties to even. *)
Definition round_half_even (q : Q) : Z :=
  let f := Qfloor q in
  match Qcompare (q - inject_Z f) 0.5 with
  | Lt => f
  | Gt => (f + 1)%Z
  | Eq => if Z.even f then f else (f + 1)%Z
  end.

Fixpoint pow10 (n : nat) : positive :=
  match n with
  | O => 1%positive
  | S k => (10 * pow10 k)%positive
  end.

(** [round(x, ndigits)] *)
Definition py_round (x : Q) (ndigits : nat) : Q :=
  Qmake (round_half_even (x * inject_Z (Zpos (pow10 ndigits)))) (pow10 ndigits).

End PyNum.

(** ** engine.py *)

Module Engine.
Import PyNum.

(** [calculate_hybrid_risk(mangrove_width, sea_state, wind_speed,
    tide_level=0, rainfall_mm=0)] *)
Definition calculate_hybrid_risk
    (mangrove_width : Q) (sea_state wind_speed : string)
    (tide_level rainfall_mm : Q) : Q :=
  let satellite_flood_risk := 0.3 in
  let indigenous_score := 0 in
  let indigenous_score :=
    if String.eqb sea_state "Rough" then indigenous_score + 0.4
    else if String.eqb sea_state "Choppy" then indigenous_score + 0.2
    else indigenous_score in
  let indigenous_score :=
    if String.eqb wind_speed "Very High" then indigenous_score + 0.2
    else if String.eqb wind_speed "High" then indigenous_score + 0.1
    else indigenous_score in
  let tide_contribution := Qmin ((tide_level / 3.0) * 0.2) 0.2 in
  let rainfall_contribution := Qmin ((rainfall_mm / 500.0) * 0.15) 0.15 in
  let protection_factor := Qmin (mangrove_width / 100) 0.5 in
  let final_risk :=
    satellite_flood_risk + indigenous_score + tide_contribution
    + rainfall_contribution - protection_factor in
  py_round (Qmax 0.0 (Qmin 1.0 final_risk)) 2.

(** Steps 1 and 2 of the formula: the part of the score that depends on the
    two dashboard selections. *)
Definition indigenous_part (sea_state wind_speed : string) : Q :=
  let indigenous_score := 0 in
  let indigenous_score :=
    if String.eqb sea_state "Rough" then indigenous_score + 0.4
    else if String.eqb sea_state "Choppy" then indigenous_score + 0.2
    else indigenous_score in
  if String.eqb wind_speed "Very High" then indigenous_score + 0.2
  else if String.eqb wind_speed "High" then indigenous_score + 0.1
  else indigenous_score.

(** The three sea states and wind speeds of the dashboard, with the
    severity order the specification gives them. *)
Definition sea_state_rank (s : string) : option nat :=
  if String.eqb s "Calm" then Some 0%nat
  else if String.eqb s "Choppy" then Some 1%nat
  else if String.eqb s "Rough" then Some 2%nat
  else None.

Definition wind_speed_rank (s : string) : option nat :=
  if String.eqb s "Normal" then Some 0%nat
  else if String.eqb s "High" then Some 1%nat
  else if String.eqb s "Very High" then Some 2%nat
  else None.

End Engine.

(** ** community_reports.py: the database *)

(** The three tables of [initialize_community_db].  A table with an
    INTEGER PRIMARY KEY AUTOINCREMENT is a finite map from row ids to rows
    together with the counter SQLite keeps in [sqlite_sequence]; the
    observers table is a finite map from its TEXT primary key. *)

Module Observation.
Record t := mk {
  observer_id : string;
  observer_name : string;
  location_lat : Q;
  location_lon : Q;
  observation_type : string;
  description : string;
  confidence_level : Q;
  timestamp : string;
  severity : string;
  validated : Z;
  validator_id : option string;
  validation_timestamp : option string;
  reliability_score : Q
}.

(** [SET validated = ?, validator_id = ?, validation_timestamp = ?] *)
Definition set_validation (v : Z) (who when : string) (o : t) : t :=
  mk (observer_id o) (observer_name o) (location_lat o) (location_lon o)
     (observation_type o) (description o) (confidence_level o) (timestamp o)
     (severity o) v (Some who) (Some when) (reliability_score o).

(** [SET reliability_score = ?] *)
Definition set_reliability_score (r : Q) (o : t) : t :=
  mk (observer_id o) (observer_name o) (location_lat o) (location_lon o)
     (observation_type o) (description o) (confidence_level o) (timestamp o)
     (severity o) (validated o) (validator_id o) (validation_timestamp o) r.
End Observation.

Module Observer.
Record t := mk {
  name : string;
  role : string;
  location_lat : Q;
  location_lon : Q;
  total_observations : Z;
  accuracy_score : Q;
  registration_date : string;
  is_verified : Z
}.

(** [SET total_observations = total_observations + 1] *)
Definition incr_total_observations (c : t) : t :=
  mk (name c) (role c) (location_lat c) (location_lon c)
     (total_observations c + 1)%Z (accuracy_score c) (registration_date c)
     (is_verified c).
End Observer.

Module ValidationRecord.
Record t := mk {
  observation_id : Z;
  validator_id : string;
  validation_date : string;
  validation_result : string;
  reliability_adjustment : Q;
  notes : string
}.
End ValidationRecord.

Module Db.

Record t := mk {
  observers : gmap string Observer.t;
  observations : gmap Z Observation.t;
  observations_seq : Z;
  validation_history : gmap Z ValidationRecord.t;
  validation_history_seq : Z
}.

(** The database right after [initialize_community_db] created it. *)
Definition initial : t := mk ∅ ∅ 0 ∅ 0.

(** Largest row id present in a table (0 for an empty one). *)
Definition max_rowid {A} (tbl : gmap Z A) : Z :=
  map_fold (λ k _ acc, Z.max k acc) 0%Z tbl.

(** AUTOINCREMENT: one more than the largest row id that is or ever was in
    the table. *)
Definition next_rowid {A} (tbl : gmap Z A) (seq : Z) : Z :=
  (Z.max seq (max_rowid tbl) + 1)%Z.

Definition with_observers (f : gmap string Observer.t → gmap string Observer.t)
    (s : t) : t :=
  mk (f (observers s)) (observations s) (observations_seq s)
     (validation_history s) (validation_history_seq s).

Definition with_observations (f : gmap Z Observation.t → gmap Z Observation.t)
    (s : t) : t :=
  mk (observers s) (f (observations s)) (observations_seq s)
     (validation_history s) (validation_history_seq s).

(** [INSERT INTO observations ...]; gives [cursor.lastrowid] too. *)
Definition insert_observation (o : Observation.t) (s : t) : Z * t :=
  let rowid := next_rowid (observations s) (observations_seq s) in
  (rowid,
   mk (observers s) (<[rowid := o]> (observations s)) rowid
      (validation_history s) (validation_history_seq s)).

(** [INSERT INTO validation_history ...].  The table declares
    [FOREIGN KEY(observation_id) REFERENCES observations(id)], but the
    connections are opened with SQLite's default [foreign_keys = OFF] and no
    PRAGMA turns it on, so the insert is not checked against the
    observations table. *)
Definition insert_validation (r : ValidationRecord.t) (s : t) : Z * t :=
  let rowid := next_rowid (validation_history s) (validation_history_seq s) in
  (rowid,
   mk (observers s) (observations s) (observations_seq s)
      (<[rowid := r]> (validation_history s)) rowid).

End Db.

(** The two clocks the module reads: Python's [datetime.now().isoformat()]
    (the [n]-th reading inside one call) and SQLite's
    [datetime('now', modifier)], which is NULL for a modifier it cannot
    parse. *)
Record clock := {
  py_now_isoformat : nat → string;
  sqlite_datetime_now : string → option string
}.

(** ** community_reports.py: validator and aggregator *)

Module Community.
Import PyNum.

Definition SEVERITY_LEVELS : gmap string Q :=
  list_to_map [("LOW", 0.2); ("MODERATE", 0.5); ("HIGH", 0.75); ("CRITICAL", 0.95)].

(** [d.get(key, dflt)] *)
Definition dict_get (d : gmap string Q) (key : string) (dflt : Q) : Q :=
  match d !! key with Some v => v | None => dflt end.

(** SQL [x BETWEEN lo AND hi] on REAL values. *)
Definition between (x lo hi : Q) : bool := Qle_bool lo x && Qle_bool x hi.

(** SQL [a > b] on TEXT values, [b] possibly NULL (BINARY collation). *)
Definition text_gt (a : string) (b : option string) : bool :=
  match b with
  | Some b' => String.ltb b' a
  | None => false
  end.

(** [register_observer(observer_id, name, role, lat, lon)]:
    INSERT OR IGNORE. *)
Definition register_observer (clk : clock) (s : Db.t)
    (observer_id name role : string) (lat lon : Q) : bool * Db.t :=
  (true,
   match Db.observers s !! observer_id with
   | Some _ => s
   | None =>
       Db.with_observers
         (insert observer_id
            (Observer.mk name role lat lon 0 0.5 (py_now_isoformat clk 0) 0)) s
   end).

(** [submit_observation(observer_id, obs_type, description, location,
    severity='MODERATE', confidence=0.7)] *)
Definition submit_observation (clk : clock) (s : Db.t)
    (observer_id obs_type description : string) (location : Q * Q)
    (severity : string) (confidence : Q) : Z * Db.t :=
  let result := Observer.name <$> (Db.observers s !! observer_id) in
  let observer_name :=
    match result with Some n => n | None => "Anonymous" end in
  let '(observation_id, s) :=
    Db.insert_observation
      (Observation.mk observer_id observer_name location.1 location.2 obs_type
         description confidence (py_now_isoformat clk 0) severity
         0 None None 0.0) s in
  let s := Db.with_observers (alter Observer.incr_total_observations observer_id) s in
  (observation_id, s).

(** [validate_observation(observation_id, validator_id, is_valid,
    reliability_adjustment=0.0, notes='')] *)
Definition validate_observation (clk : clock) (s : Db.t)
    (observation_id : Z) (validator_id : string) (is_valid : bool)
    (reliability_adjustment : Q) (notes : string) : bool * Db.t :=
  let s :=
    Db.with_observations
      (alter (Observation.set_validation (if is_valid then 1 else 0)
                validator_id (py_now_isoformat clk 0)) observation_id) s in
  let '(_, s) :=
    Db.insert_validation
      (ValidationRecord.mk observation_id validator_id (py_now_isoformat clk 1)
         (if is_valid then "VALID" else "INVALID") reliability_adjustment notes) s in
  (true, s).

(** The first query of [calculate_observation_reliability]: observations
    joined with observers on [observer_id], restricted to one observation
    id.  Columns: observer_id, confidence_level, severity, validated,
    accuracy_score. *)
Definition observation_join_observer (s : Db.t) (observation_id : Z)
    : option (string * Q * string * Z * Q) :=
  o ← Db.observations s !! observation_id;
  c ← Db.observers s !! Observation.observer_id o;
  Some (Observation.observer_id o, Observation.confidence_level o,
        Observation.severity o, Observation.validated o,
        Observer.accuracy_score c).

(** The WHERE clause of the corroboration query, for the row [kv]; [lat],
    [lon] and [obs_type] are the sub-selects on the observation itself. *)
Definition corroborates (observation_id : Z) (lat lon : Q) (obs_type : string)
    (kv : Z * Observation.t) : bool :=
  between (Observation.location_lat kv.2) (lat - 0.09) (lat + 0.09)
  && between (Observation.location_lon kv.2) (lon - 0.09) (lon + 0.09)
  && String.eqb (Observation.observation_type kv.2) obs_type
  && negb (kv.1 =? observation_id)%Z
  && (Observation.validated kv.2 =? 1)%Z.

(** Lines 279-312: the score from the joined row and the corroboration
    count. *)
Definition reliability_from (observer_accuracy confidence : Q)
    (severity : string) (validated corroboration_count : Z) : Q :=
  let base_score := observer_accuracy in
  let base_score := base_score * confidence in
  let severity_weight := dict_get SEVERITY_LEVELS severity 0.5 in
  let base_score := base_score * 0.7 + severity_weight * 0.3 in
  let base_score :=
    if (validated =? 0)%Z then base_score
    else Qmin (base_score + 0.15) 1.0 in
  if (corroboration_count >? 0)%Z
  then Qmin (base_score + inject_Z corroboration_count * 0.05) 1.0
  else base_score.

(** [SELECT COUNT( * ) FROM observations WHERE ...] of the corroboration
    check. *)
Definition corroboration_count (s : Db.t) (observation_id : Z)
    (o : Observation.t) : Z :=
  Z.of_nat
    (size (filter
             (λ kv, corroborates observation_id (Observation.location_lat o)
                      (Observation.location_lon o)
                      (Observation.observation_type o) kv = true)
             (Db.observations s))).

(** [calculate_observation_reliability(observation_id)] *)
Definition calculate_observation_reliability (s : Db.t) (observation_id : Z)
    : Q * Db.t :=
  match observation_join_observer s observation_id with
  | None => (0.0, s)
  | Some (observer_id, confidence, severity, validated, observer_accuracy) =>
      (* the sub-selects of the corroboration query read the observation
         again; [fetchone()[0]] on a missing row raises, and the handler
         returns 0.0 *)
      match Db.observations s !! observation_id with
      | None => (0.0, s)
      | Some o =>
          let base_score :=
            reliability_from observer_accuracy confidence severity validated
              (corroboration_count s observation_id o) in
          let s :=
            Db.with_observations
              (alter (Observation.set_reliability_score base_score)
                 observation_id) s in
          (py_round base_score 3, s)
      end
  end.

(** Keys of [OBSERVATION_TYPES]. *)
Definition OBSERVATION_TYPES : list string :=
  ["anomalous_waves"; "wind_pattern_shift"; "tidal_anomaly";
   "wildlife_behavior"; "coastal_erosion"; "mangrove_stress"].

(** A row of the aggregator's query: observation_type, severity,
    reliability_score, description. *)
Definition score_row : Type := string * string * Q * string.

Definition row_of (o : Observation.t) : score_row :=
  (Observation.observation_type o, Observation.severity o,
   Observation.reliability_score o, Observation.description o).

(** The dictionary [calculate_indigenous_score_from_observations]
    returns; a key the returned dictionary does not have is [None]. *)
Record indigenous_score := {
  wave_anomaly_score : option Q;
  wind_anomaly_score : option Q;
  tidal_anomaly_score : option Q;
  ecosystem_stress_score : option Q;
  total_indigenous_score : Q;
  confidence : Q;
  num_observations : Z;
  observations_summary : option (list score_row)
}.

(** The WHERE clause of the aggregator's query. *)
Definition in_window (clk : clock) (location : Q * Q) (hours_back : Z)
    (o : Observation.t) : bool :=
  let search_radius := 0.45 in
  between (Observation.location_lat o)
    (location.1 - search_radius) (location.1 + search_radius)
  && between (Observation.location_lon o)
       (location.2 - search_radius) (location.2 + search_radius)
  && (Observation.validated o =? 1)%Z
  && text_gt (Observation.timestamp o)
       (sqlite_datetime_now clk ("-" +:+ pretty hours_back +:+ " hours")).

(** [ORDER BY reliability_score DESC] (the order among equal scores is
    SQLite's choice; here a row goes after the rows it ties with). *)
Fixpoint insert_by_reliability (r : score_row) (l : list score_row)
    : list score_row :=
  match l with
  | [] => [r]
  | x :: l' =>
      if Qle_bool r.1.2 x.1.2 then x :: insert_by_reliability r l'
      else r :: l
  end.

Definition order_by_reliability_desc (l : list score_row) : list score_row :=
  foldr insert_by_reliability [] l.

Definition query_window (clk : clock) (s : Db.t) (location : Q * Q)
    (hours_back : Z) : list score_row :=
  order_by_reliability_desc
    (row_of <$>
       List.filter (in_window clk location hours_back)
         ((map_to_list (Db.observations s)).*2)).

(** One turn of the loop over [df.iterrows()]; [None] is the [KeyError] of
    [scores[obs_type] += contribution]. *)
Definition add_contribution (scores : gmap string Q) (row : score_row)
    : option (gmap string Q) :=
  let obs_type := row.1.1.1 in
  let severity_weight := dict_get SEVERITY_LEVELS row.1.1.2 0.5 in
  let reliability := row.1.2 in
  let contribution := severity_weight * reliability in
  old ← scores !! obs_type;
  Some (<[obs_type := old + contribution]> scores).

Fixpoint aggregate (scores : gmap string Q) (rows : list score_row)
    : option (gmap string Q) :=
  match rows with
  | [] => Some scores
  | row :: rows' => scores' ← add_contribution scores row; aggregate scores' rows'
  end.

(** The [try] block after the query, for a non-empty frame; [None] when
    it raises. *)
Definition score_rows (df : list score_row) : option indigenous_score :=
  scores ← aggregate
    (list_to_map
       [("anomalous_waves", 0.0); ("wind_pattern_shift", 0.0);
        ("tidal_anomaly", 0.0); ("wildlife_behavior", 0.0);
        ("coastal_erosion", 0.0); ("mangrove_stress", 0.0)]) df;
  anomalous_waves ← scores !! "anomalous_waves";
  wind_pattern_shift ← scores !! "wind_pattern_shift";
  tidal_anomaly ← scores !! "tidal_anomaly";
  wildlife_behavior ← scores !! "wildlife_behavior";
  coastal_erosion ← scores !! "coastal_erosion";
  mangrove_stress ← scores !! "mangrove_stress";
  let wave_score := Qmin (anomalous_waves / 3) 0.4 in
  let wind_score := Qmin (wind_pattern_shift / 3) 0.3 in
  let tidal_score := Qmin (tidal_anomaly / 3) 0.25 in
  let ecosystem_score :=
    Qmin ((wildlife_behavior + coastal_erosion + mangrove_stress) / 9) 0.2 in
  let total_score := wave_score + wind_score + tidal_score + ecosystem_score in
  let total_score := Qmin total_score 1.0 in
  let confidence := Qmin (inject_Z (Z.of_nat (length df)) / 5) 1.0 in
  Some {| wave_anomaly_score := Some (py_round wave_score 3);
          wind_anomaly_score := Some (py_round wind_score 3);
          tidal_anomaly_score := Some (py_round tidal_score 3);
          ecosystem_stress_score := Some (py_round ecosystem_score 3);
          total_indigenous_score := py_round total_score 3;
          confidence := py_round confidence 3;
          num_observations := Z.of_nat (length df);
          observations_summary := Some df |}.

(** The dictionary returned for an empty frame. *)
Definition empty_score : indigenous_score :=
  {| wave_anomaly_score := Some 0.0;
     wind_anomaly_score := Some 0.0;
     tidal_anomaly_score := Some 0.0;
     ecosystem_stress_score := Some 0.0;
     total_indigenous_score := 0.0;
     confidence := 0.0;
     num_observations := 0;
     observations_summary := None |}.

(** The dictionary returned by the exception handler. *)
Definition error_score : indigenous_score :=
  {| wave_anomaly_score := None;
     wind_anomaly_score := None;
     tidal_anomaly_score := None;
     ecosystem_stress_score := None;
     total_indigenous_score := 0.0;
     confidence := 0.0;
     num_observations := 0;
     observations_summary := None |}.

(** [calculate_indigenous_score_from_observations(location, hours_back=24)] *)
Definition calculate_indigenous_score_from_observations (clk : clock)
    (s : Db.t) (location : Q * Q) (hours_back : Z) : indigenous_score :=
  let df := query_window clk s location hours_back in
  match df with
  | [] => empty_score
  | _ :: _ =>
      match score_rows df with
      | Some d => d
      | None => error_score
      end
  end.

(** [ORDER BY timestamp DESC] on whole rows (row id, columns); a row goes
    after the rows it ties with. *)
Fixpoint insert_by_timestamp (r : Z * Observation.t)
    (l : list (Z * Observation.t)) : list (Z * Observation.t) :=
  match l with
  | [] => [r]
  | x :: l' =>
      if String.leb (Observation.timestamp r.2) (Observation.timestamp x.2)
      then x :: insert_by_timestamp r l'
      else r :: l
  end.

Definition order_by_timestamp_desc (l : list (Z * Observation.t))
    : list (Z * Observation.t) :=
  foldr insert_by_timestamp [] l.

(** The WHERE clause [get_recent_observations] builds; [if obs_type:] adds
    the type test only for a non-empty string. *)
Definition recent_filter (clk : clock) (days : Z) (obs_type : option string)
    (min_reliability : Q) (o : Observation.t) : bool :=
  text_gt (Observation.timestamp o)
    (sqlite_datetime_now clk ("-" +:+ pretty days +:+ "days"))
  && (Observation.validated o =? 1)%Z
  && Qle_bool min_reliability (Observation.reliability_score o)
  && match obs_type with
     | Some ty =>
         if String.eqb ty "" then true
         else String.eqb (Observation.observation_type o) ty
     | None => true
     end.

(** [get_recent_observations(days=7, obs_type=None, min_reliability=0.3)]:
    the rows of the returned frame, [SELECT *] so with their ids. *)
Definition get_recent_observations (clk : clock) (s : Db.t) (days : Z)
    (obs_type : option string) (min_reliability : Q)
    : list (Z * Observation.t) :=
  order_by_timestamp_desc
    (List.filter (λ kv, recent_filter clk days obs_type min_reliability kv.2)
       (map_to_list (Db.observations s))).

(** [submit_community_report(observer_id, obs_type, description, location,
    severity='MODERATE')], on the global validator. *)
Definition submit_community_report (clk : clock) (s : Db.t)
    (observer_id obs_type description : string) (location : Q * Q)
    (severity : string) : Z * Db.t :=
  submit_observation clk s observer_id obs_type description location severity 0.7.

(** [get_indigenous_risk_score(location, hours_back=24)] *)
Definition get_indigenous_risk_score (clk : clock) (s : Db.t)
    (location : Q * Q) (hours_back : Z) : indigenous_score :=
  calculate_indigenous_score_from_observations clk s location hours_back.

(** Invariant of the loop over the rows: the accumulator has an entry for
    each of the six observation types. *)
Definition has_all_types (scores : gmap string Q) : Prop :=
  ∀ ty, ty ∈ OBSERVATION_TYPES → is_Some (scores !! ty).

(** The shape of the dictionary the [try] block builds. *)
Definition scored_from (df : list score_row) (d : indigenous_score)
    (wave wind tidal eco : Q) : Prop :=
  wave_anomaly_score d = Some (py_round wave 3)
  ∧ wind_anomaly_score d = Some (py_round wind 3)
  ∧ tidal_anomaly_score d = Some (py_round tidal 3)
  ∧ ecosystem_stress_score d = Some (py_round eco 3)
  ∧ total_indigenous_score d = py_round (Qmin (wave + wind + tidal + eco) 1.0) 3
  ∧ confidence d
    = py_round (Qmin (inject_Z (Z.of_nat (length df)) / 5) 1.0) 3
  ∧ num_observations d = Z.of_nat (length df).


(** What one turn of the loop adds to the entry of the row's type. *)
Definition contribution (row : score_row) : Q :=
  dict_get SEVERITY_LEVELS row.1.1.2 0.5 * row.1.2.

(** [scores[ty]] after the loop over the frame [df]: from 0.0, the
    contributions of the rows of type [ty], added in the order of the
    frame. *)
Definition type_score (ty : string) (df : list score_row) : Q :=
  foldl (λ acc row, if String.eqb row.1.1.1 ty then acc + contribution row
                    else acc)
    0.0 df.

(** The four sub-scores before they are rounded, and their capped sum. *)
Definition wave_score (df : list score_row) : Q :=
  Qmin (type_score "anomalous_waves" df / 3) 0.4.

Definition wind_score (df : list score_row) : Q :=
  Qmin (type_score "wind_pattern_shift" df / 3) 0.3.

Definition tidal_score (df : list score_row) : Q :=
  Qmin (type_score "tidal_anomaly" df / 3) 0.25.

Definition ecosystem_score (df : list score_row) : Q :=
  Qmin ((type_score "wildlife_behavior" df + type_score "coastal_erosion" df
         + type_score "mangrove_stress" df) / 9) 0.2.

Definition total_score (df : list score_row) : Q :=
  Qmin (wave_score df + wind_score df + tidal_score df + ecosystem_score df)
    1.0.

(** The total read as the capped sum of the four sub-scores the result
    carries. *)
Definition total_is_capped_sum_of_returned (d : indigenous_score) : Prop :=
  ∃ wave wind tidal eco : Q,
    wave_anomaly_score d = Some wave
    ∧ wind_anomaly_score d = Some wind
    ∧ tidal_anomaly_score d = Some tidal
    ∧ ecosystem_stress_score d = Some eco
    ∧ total_indigenous_score d == Qmin (wave + wind + tidal + eco) 1.0.

(** The calendar day and the time of day a timestamp names, in Python's
    notation (["YYYY-MM-DDTHH:MM:SS.ffffff"]) as in SQLite's
    (["YYYY-MM-DD HH:MM:SS"]). *)
Definition date_of (timestamp : string) : string := substring 0 10 timestamp.

Definition time_of (timestamp : string) : string := substring 11 8 timestamp.

(** Timestamp [a] names an earlier second than timestamp [b]. *)
Definition earlier (a b : string) : bool :=
  String.ltb (date_of a) (date_of b)
  || (String.eqb (date_of a) (date_of b)
      && String.ltb (time_of a) (time_of b)).

End Community.

(** ** Python values that reach the validators *)

(** A float that is a finite number or [float('inf')], which [routing.py]
    itself produces: the numbers that have a place in the order.  NaN is a
    value of its own ([PyNaN] below); negative infinity is not modelled. *)
Inductive float := Fin (q : Q) | Inf.

Module Float.
Definition leb (a b : float) : bool :=
  match a, b with
  | Fin x, Fin y => Qle_bool x y
  | _, Inf => true
  | Inf, Fin _ => false
  end.

Definition ltb (a b : float) : bool := negb (leb b a).
End Float.

(** [PyNaN] is [float('nan')]. *)
Inductive py_value :=
| PyInt (z : Z)
| PyFloat (x : float)
| PyNaN
| PyStr (s : string)
| PyBool (b : bool)
| PyNone.

Module Py.
(** [isinstance(v, (int, float))]: [bool] is a subclass of [int], and NaN
    is a float. *)
Definition is_number (v : py_value) : bool :=
  match v with
  | PyInt _ | PyFloat _ | PyNaN | PyBool _ => true
  | PyStr _ | PyNone => false
  end.

(** The number a value is in the order of the numbers: none for NaN, as
    for a value that is no number at all. *)
Definition number (v : py_value) : option float :=
  match v with
  | PyInt z => Some (Fin (inject_Z z))
  | PyFloat x => Some x
  | PyBool b => Some (Fin (if b then 1 else 0))
  | PyNaN | PyStr _ | PyNone => None
  end.

(** [a <= b] and [a < b] between an int or float and a constant: false
    when the value is NaN. *)
Definition leb (a b : py_value) : bool :=
  match number a, number b with
  | Some x, Some y => Float.leb x y
  | _, _ => false
  end.

Definition ltb (a b : py_value) : bool :=
  match number a, number b with
  | Some x, Some y => Float.ltb x y
  | _, _ => false
  end.

(** [isinstance(v, int)] *)
Definition is_int (v : py_value) : option Z :=
  match v with
  | PyInt z => Some z
  | PyBool b => Some (if b then 1 else 0)%Z
  | _ => None
  end.

(** A formatted message: literal text, interpolated values (the text Python
    prints for a number is not modelled, the value stands for it), the type
    of a value, a list of names. *)
Inductive piece :=
| Text (s : string)
| Val (v : py_value)
| TypeOf (v : py_value)
| Names (l : list string).

Definition message : Type := list piece.
End Py.

(** ** config.py *)

Module Config.
Definition EVACUATION_SPEED_MS : Q := 1.2.
Definition EVACUATION_DELAY_MIN : Z := 5.
Definition LAT_MIN : Q := 8.0.
Definition LAT_MAX : Q := 12.5.
Definition LON_MIN : Q := 74.0.
Definition LON_MAX : Q := 78.0.
End Config.

(** ** validation.py *)

Module Validation.
Import PyNum Py.

(** A call returns or raises [ValidationError(msg)]. *)
Inductive outcome (A : Type) :=
| Returns (a : A)
| RaisesValidationError (msg : message).
Arguments Returns {A} a.
Arguments RaisesValidationError {A} msg.

(** A value is a finite number between two bounds. *)
Definition number_between (v : py_value) (lo hi : Q) : Prop :=
  ∃ x, number v = Some (Fin x) ∧ lo <= x <= hi.


(** [CoordinateValidator.validate_lat(lat)] *)
Definition validate_lat (lat : py_value) : outcome bool :=
  if negb (is_number lat)
  then RaisesValidationError
         [Text "Latitude must be numeric, got "; TypeOf lat]
  else if negb (leb (PyFloat (Fin Config.LAT_MIN)) lat
                && leb lat (PyFloat (Fin Config.LAT_MAX)))
  then RaisesValidationError
         [Text "Latitude "; Val lat; Text " outside Kerala bounds (";
          Val (PyFloat (Fin Config.LAT_MIN)); Text "-";
          Val (PyFloat (Fin Config.LAT_MAX)); Text ")"]
  else Returns true.

(** [CoordinateValidator.validate_lon(lon)] *)
Definition validate_lon (lon : py_value) : outcome bool :=
  if negb (is_number lon)
  then RaisesValidationError
         [Text "Longitude must be numeric, got "; TypeOf lon]
  else if negb (leb (PyFloat (Fin Config.LON_MIN)) lon
                && leb lon (PyFloat (Fin Config.LON_MAX)))
  then RaisesValidationError
         [Text "Longitude "; Val lon; Text " outside Kerala bounds (";
          Val (PyFloat (Fin Config.LON_MIN)); Text "-";
          Val (PyFloat (Fin Config.LON_MAX)); Text ")"]
  else Returns true.

(** [CoordinateValidator.validate_coordinates(lat, lon)] *)
Definition validate_coordinates (lat lon : py_value) : bool * option message :=
  match validate_lat lat with
  | RaisesValidationError error_msg => (false, Some error_msg)
  | Returns _ =>
      match validate_lon lon with
      | RaisesValidationError error_msg => (false, Some error_msg)
      | Returns _ => (true, None)
      end
  end.



Definition valid_states : list string := ["Calm"; "Choppy"; "Rough"].

(** [state not in valid_states]: only a string can equal one of them. *)
Definition in_valid_states (state : py_value) : bool :=
  match state with
  | PyStr s => existsb (String.eqb s) valid_states
  | _ => false
  end.

(** [RiskValidator.validate_sea_state(state)] *)
Definition validate_sea_state (state : py_value) : bool * option message :=
  if negb (in_valid_states state)
  then (false,
        Some [Text "Sea state '"; Val state; Text "' invalid. Must be one of: ";
              Names valid_states])
  else (true, None).

(** [ShelterValidator.validate_shelter(shelter)]; [None] is the [KeyError]
    that cannot happen once the five fields are there. *)
Definition validate_shelter (shelter : gmap string py_value)
    : option (bool * option message) :=
  let required_fields := ["id"; "name"; "lat"; "lon"; "capacity"] in
  let missing :=
    List.filter (λ f, negb (bool_decide (is_Some (shelter !! f))))
      required_fields in
  match missing with
  | _ :: _ => Some (false, Some [Text "Shelter missing fields: "; Names missing])
  | [] =>
      lat ← shelter !! "lat";
      lon ← shelter !! "lon";
      let '(is_valid, msg) := validate_coordinates lat lon in
      if negb is_valid then Some (false, msg)
      else
        capacity ← shelter !! "capacity";
        if match is_int capacity with
           | None => true
           | Some z => (z <=? 0)%Z
           end
        then Some (false,
                   Some [Text "Shelter capacity must be positive integer, got ";
                         Val capacity])
        else Some (true, None)
  end.

(** What a shelter must have for [validate_shelter] to accept it. *)
Definition well_formed_shelter (shelter : gmap string py_value) : Prop :=
  is_Some (shelter !! "id")
  ∧ is_Some (shelter !! "name")
  ∧ (∃ lat, shelter !! "lat" = Some lat
            ∧ number_between lat Config.LAT_MIN Config.LAT_MAX)
  ∧ (∃ lon, shelter !! "lon" = Some lon
            ∧ number_between lon Config.LON_MIN Config.LON_MAX)
  ∧ (∃ capacity z, shelter !! "capacity" = Some capacity
                   ∧ is_int capacity = Some z ∧ (0 < z)%Z).

(** [DistanceValidator.validate_distance(distance_m)] *)
Definition validate_distance (distance_m : float) : bool * option message :=
  if Float.ltb distance_m (Fin 0)
  then (false,
        Some [Text "Distance cannot be negative: "; Val (PyFloat distance_m);
              Text "m"])
  else if Float.ltb (Fin 100000) distance_m
  then (false,
        Some [Text "Distance "; Val (PyFloat distance_m);
              Text "m seems unrealistic for local evacuation"])
  else (true, None).

(** [int(x)] on a float: truncation towards zero. *)
Definition py_int (x : Q) : Z := Z.quot (Qnum x) (Zpos (Qden x)).

(** The dictionary [calculate_evacuation_time] returns; a key that is not
    in the returned dictionary is [None]. *)
Record evacuation_time := {
  distance_m : option Q;
  distance_km : option Q;
  time_min : Q;
  time_with_delay : Q;
  speed_assumption : py_value;
  reaction_delay_min : option Z;
  description : option string;
  error : option message
}.

(** [EvacuationTimeCalculator.calculate_evacuation_time(distance_m)].
    [validate_distance] accepts no infinite distance, so the first branch
    is the whole of the valid case and the second the error case. *)
Definition calculate_evacuation_time (distance : float) : evacuation_time :=
  let '(is_valid, msg) := validate_distance distance in
  match is_valid, distance with
  | true, Fin d =>
      let time_seconds := d / Config.EVACUATION_SPEED_MS in
      let time_minutes := time_seconds / 60 in
      let total_with_delay :=
        time_minutes + inject_Z Config.EVACUATION_DELAY_MIN in
      {| distance_m := Some d;
         distance_km := Some (py_round (d / 1000) 2);
         time_min := py_round time_minutes 1;
         time_with_delay := py_round total_with_delay 1;
         speed_assumption := PyStr "1.2 m/s (walking)";
         reaction_delay_min := Some Config.EVACUATION_DELAY_MIN;
         description :=
           Some ("~" +:+ pretty (py_int total_with_delay)
                 +:+ " minutes to evacuate (includes "
                 +:+ pretty Config.EVACUATION_DELAY_MIN
                 +:+ "min reaction time)");
         error := None |}
  | _, _ =>
      {| distance_m := None;
         distance_km := None;
         time_min := 0;
         time_with_delay := 0;
         speed_assumption := PyFloat (Fin Config.EVACUATION_SPEED_MS);
         reaction_delay_min := None;
         description := None;
         error := msg |}
  end.


End Validation.

(** ** routing.py *)

Module Routing.
Import Py.



(** [is_in_water(lon, lat)] *)
Definition is_in_water (lon lat : Q) : bool := negb (Qle_bool 76.1 lon).




(** A call returns or raises [KeyError]. *)
Inductive outcome (A : Type) :=
| Returns (a : A)
| RaisesKeyError (key : string).
Arguments Returns {A} a.
Arguments RaisesKeyError {A} key.

Section WithHaversine.

(** [haversine(lon1, lat1, lon2, lat2)] on numbers.  Its value comes from
    [math.sin], [math.cos], [math.atan2] and [math.sqrt], which have no
    exact counterpart here: it is a parameter, and the results below hold
    for every function in its place.  [Inf] is the handler's
    [float('inf')]. *)
Variable haversine : float → float → float → float → float.

(** [haversine] called with two values read from a dictionary: on a value
    that is not a number the arithmetic raises [TypeError], which
    [haversine] catches itself; on two numbers one of which is NaN every
    step gives NaN and so does the call ([None] here). *)
Definition haversine_values (lon1 lat1 : float) (lon2 lat2 : py_value)
    : option float :=
  if is_number lon2 && is_number lat2
  then match number lon2, number lat2 with
       | Some x, Some y => Some (haversine lon1 lat1 x y)
       | _, _ => None
       end
  else Some Inf.

(** The distance the loop computes for a shelter it does not skip, when
    that distance is a number. *)
Definition shelter_distance (user_lon user_lat : float)
    (shelter : gmap string py_value) : option float :=
  slon ← shelter !! "lon";
  slat ← shelter !! "lat";
  haversine_values user_lon user_lat slon slat.

(** The loop of [nearest_shelter]; a shelter without ['lon'] or ['lat']
    raises [KeyError] inside the [try] and is skipped, and for a NaN
    distance [d < best_distance] is false. *)
Fixpoint nearest_loop (user_lon user_lat : float)
    (shelters : list (gmap string py_value))
    (best_shelter : option (gmap string py_value)) (best_distance : float)
    : option (gmap string py_value) * float :=
  match shelters with
  | [] => (best_shelter, best_distance)
  | shelter :: rest =>
      match shelter !! "lon", shelter !! "lat" with
      | Some slon, Some slat =>
          match haversine_values user_lon user_lat slon slat with
          | Some d =>
              if Float.ltb d best_distance
              then nearest_loop user_lon user_lat rest (Some shelter) d
              else nearest_loop user_lon user_lat rest best_shelter
                     best_distance
          | None =>
              nearest_loop user_lon user_lat rest best_shelter best_distance
          end
      | _, _ => nearest_loop user_lon user_lat rest best_shelter best_distance
      end
  end.

(** [nearest_shelter(user_lon, user_lat, shelters)].  The log line after
    the loop reads [best_shelter['name']] outside any [try]. *)
Definition nearest_shelter (user_lon user_lat : float)
    (shelters : list (gmap string py_value))
    : outcome (option (gmap string py_value) * float) :=
  match shelters with
  | [] => Returns (None, Inf)
  | _ :: _ =>
      let '(best_shelter, best_distance) :=
        nearest_loop user_lon user_lat shelters None Inf in
      match best_shelter with
      | Some b =>
          if bool_decide (b = ∅) then Returns (best_shelter, best_distance)
          else match b !! "name" with
               | Some _ => Returns (best_shelter, best_distance)
               | None => RaisesKeyError "name"
               end
      | None => Returns (best_shelter, best_distance)
      end
  end.

End WithHaversine.

End Routing.

(** ** vessels.py *)

Module Vessel.
Record t := mk {
  id : string;
  name : string;
  type : string;
  positions : list (Q * Q)
}.
End Vessel.

Module VesselPoint.
Record t := mk {
  id : string;
  name : string;
  type : string;
  lon : Q;
  lat : Q
}.
End VesselPoint.

Module Vessels.

(** [sample_vessel_positions()] *)
Definition sample_vessel_positions : list Vessel.t :=
  [Vessel.mk "V-101" "Sea Hawk" "fishing"
     [(76.15, 9.95); (76.16, 9.96); (76.17, 9.97); (76.18, 9.98); (76.19, 9.99)];
   Vessel.mk "V-102" "Ocean Star" "trawler"
     [(76.18, 10.05); (76.185, 10.04); (76.19, 10.03); (76.195, 10.02);
      (76.20, 10.01)];
   Vessel.mk "V-103" "Delta X" "patrol"
     [(76.22, 9.92); (76.21, 9.93); (76.20, 9.94); (76.19, 9.95); (76.18, 9.96)]].

(** [a % b] on integers; [None] is [ZeroDivisionError]. *)
Definition py_mod (a b : Z) : option Z :=
  if (b =? 0)%Z then None else Some (a mod b)%Z.

(** [l[k]]; a negative [k] counts from the end, [None] is [IndexError]. *)
Definition py_index {A} (l : list A) (k : Z) : option A :=
  let k' := if (k <? 0)%Z then (Z.of_nat (length l) + k)%Z else k in
  if (k' <? 0)%Z then None else l !! Z.to_nat k'.

(** [get_positions_at_step(vessels, step)]; [None] when it raises. *)
Definition get_positions_at_step (vessels : list Vessel.t) (step : Z)
    : option (list VesselPoint.t) :=
  mapM (λ v,
          k ← py_mod step (Z.of_nat (length (Vessel.positions v)));
          pos ← py_index (Vessel.positions v) k;
          Some (VesselPoint.mk (Vessel.id v) (Vessel.name v) (Vessel.type v)
                  pos.1 pos.2))
       vessels.

End Vessels.

(** ** cyclone.py *)

Module Cyclone.





Section WithML.

(** [ml_cyclone_predictor] is imported inside a [try] and is not a file of
    the repository: whether the import succeeds, and what
    [get_landfall_risk] then returns ([None] when it raises), are
    parameters. *)
Variable ML_AVAILABLE : bool.
Variable get_landfall_risk : list (Q * Q) → Q → Q → Q → Q → option Q.


End WithML.

End Cyclone.

(** ** SQLite's [datetime('now', modifier)] *)

Module Sqlite.
Local Open Scope Z_scope.

(** An instant of the clock SQLite reads (UTC). *)
Record instant := mk {
  year : Z; month : Z; day : Z; hour : Z; minute : Z; second : Z
}.

(** Days since 1970-01-01 of a date of the Gregorian calendar, and back. *)
Definition days_from_civil (y m d : Z) : Z :=
  let y := if m <=? 2 then y - 1 else y in
  let era := y / 400 in
  let yoe := y - era * 400 in
  let mp := (m + 9) mod 12 in
  let doy := (153 * mp + 2) / 5 + d - 1 in
  let doe := yoe * 365 + yoe / 4 - yoe / 100 + doy in
  era * 146097 + doe - 719468.

Definition civil_from_days (z : Z) : Z * Z * Z :=
  let z := z + 719468 in
  let era := z / 146097 in
  let doe := z - era * 146097 in
  let yoe := (doe - doe / 1460 + doe / 36524 - doe / 146096) / 365 in
  let doy := doe - (365 * yoe + yoe / 4 - yoe / 100) in
  let mp := (5 * doy + 2) / 153 in
  let d := doy - (153 * mp + 2) / 5 + 1 in
  let m := if mp <? 10 then mp + 3 else mp - 9 in
  (if m <=? 2 then yoe + era * 400 + 1 else yoe + era * 400, m, d).

Definition digit (c : ascii) : option Z :=
  let n := Z.of_nat (nat_of_ascii c) in
  if (48 <=? n) && (n <=? 57) then Some (n - 48) else None.

Fixpoint digits (s : string) (acc : Z) : option Z :=
  match s with
  | EmptyString => Some acc
  | String c s' => d ← digit c; digits s' (10 * acc + d)
  end.

(** A whole number with at most one sign in front. *)
Definition signed_number (s : string) : option Z :=
  match s with
  | EmptyString => None
  | String "-" (String c s') => Z.opp <$> digits (String c s') 0
  | String "+" (String c s') => digits (String c s') 0
  | String _ _ => digits s 0
  end.

(** The text before the first space and the text after it. *)
Fixpoint split_at_space (s : string) : string * string :=
  match s with
  | EmptyString => (EmptyString, EmptyString)
  | String " " s' => (EmptyString, s')
  | String c s' => let '(a, b) := split_at_space s' in (String c a, b)
  end.

Definition seconds_of_unit (unit : string) : option Z :=
  if String.eqb unit "hours" || String.eqb unit "hour" then Some 3600
  else if String.eqb unit "days" || String.eqb unit "day" then Some 86400
  else None.

Definition pad2 (z : Z) : string :=
  if z <? 10 then "0" +:+ pretty z else pretty z.

Definition pad4 (z : Z) : string :=
  if z <? 10 then "000" +:+ pretty z
  else if z <? 100 then "00" +:+ pretty z
  else if z <? 1000 then "0" +:+ pretty z
  else pretty z.

(** [datetime('now', modifier)] at the instant [now], for the modifiers
    [community_reports.py] builds: a whole number of hours or of days.  The
    number runs up to the first space and has to be a number as a whole,
    and the unit follows the space: for a modifier without the space
    (["-7days"]) or with two signs (["--3 hours"]) the result is NULL, as
    it is for a date outside the years 0 to 9999.  The other units of
    SQLite are left out (NULL here). *)
Definition datetime (now : instant) (modifier : string) : option string :=
  let '(number, unit) := split_at_space modifier in
  n ← signed_number number;
  k ← seconds_of_unit unit;
  let t := days_from_civil (year now) (month now) (day now) * 86400
           + hour now * 3600 + minute now * 60 + second now + n * k in
  let '(y, m, d) := civil_from_days (t / 86400) in
  let r := t mod 86400 in
  if (y <? 0) || (9999 <? y) then None
  else Some (pad4 y +:+ "-" +:+ pad2 m +:+ "-" +:+ pad2 d +:+ " "
             +:+ pad2 (r / 3600) +:+ ":" +:+ pad2 (r mod 3600 / 60) +:+ ":"
             +:+ pad2 (r mod 60)).

(** There is no space in [s]: splitting [s +:+ t] at the first space
    leaves what splitting [t] leaves. *)
Definition spaceless (s : string) : Prop :=
  ∀ t, (split_at_space (s +:+ t)).2 = (split_at_space t).2.

End Sqlite.

(** ** A small run of the system, used as concrete input below *)

Module Scenario.
Import Community.

(** Half past nine in the morning of 15 January 2026 in India, which is
    04:00:00 UTC. *)
Definition clk : clock :=
  {| py_now_isoformat := λ _, "2026-01-15T09:30:00.000000";
     sqlite_datetime_now := Sqlite.datetime (Sqlite.mk 2026 1 15 4 0 0) |}.

(** The evening of the next day: 20:00:00 UTC on 16 January 2026. *)
Definition clk_next_evening : clock :=
  {| py_now_isoformat := λ _, "2026-01-17T01:30:00.000000";
     sqlite_datetime_now := Sqlite.datetime (Sqlite.mk 2026 1 16 20 0 0) |}.

(** One registered fisherman. *)
Definition db_registered : Db.t :=
  (register_observer clk Db.initial "F-001" "Ravi" "fisherman" 19.0 72.8).2.

(** ... who reports unusual waves with confidence 0.123 (observation 1). *)
Definition db_reported : Db.t :=
  (submit_observation clk db_registered "F-001" "anomalous_waves"
     "unusually high waves" (19.0, 72.8) "MODERATE" 0.123).2.

(** ... which an elder validates and which is then scored. *)
Definition db_validated : Db.t :=
  (validate_observation clk db_reported 1 "elder" true 0.0 "").2.

Definition db_scored : Db.t :=
  (calculate_observation_reliability db_validated 1).2.

(** A report from an observer id nobody registered (observation 1 of a
    fresh database). *)
Definition db_anonymous : Db.t :=
  (submit_observation clk Db.initial "ghost" "tidal_anomaly"
     "tide did not recede" (19.0, 72.8) "HIGH" 0.7).2.

(** A second report of the same kind at the same place (observation 2). *)
Definition db_two_reports : Db.t :=
  (submit_observation clk db_reported "F-001" "anomalous_waves"
     "waves over the sea wall" (19.01, 72.81) "HIGH" 0.9).2.

(** Two reports of different kinds, both of severity HIGH and confidence
    0.076, both validated and scored (observations 1 and 2). *)
Definition db_two_kinds : Db.t :=
  let s := (submit_observation clk db_registered "F-001" "anomalous_waves"
              "waves over the jetty" (19.0, 72.8) "HIGH" 0.076).2 in
  let s := (submit_observation clk s "F-001" "wind_pattern_shift"
              "wind turned within minutes" (19.0, 72.8) "HIGH" 0.076).2 in
  let s := (validate_observation clk s 1 "elder" true 0.0 "").2 in
  let s := (validate_observation clk s 2 "elder" true 0.0 "").2 in
  let s := (calculate_observation_reliability s 1).2 in
  (calculate_observation_reliability s 2).2.

(** A validated report whose type is not one of the six. *)
Definition db_unknown_type : Db.t :=
  (validate_observation clk
     (submit_observation clk db_scored "F-001" "volcano" "smoke on the hill"
        (19.0, 72.8) "LOW" 0.5).2 2 "elder" true 0.0 "").2.

(** A stand-in for [haversine] on concrete inputs: 111 km per degree along
    each axis, added up. *)
Definition grid_distance (lon1 lat1 lon2 lat2 : float) : float :=
  match lon1, lat1, lon2, lat2 with
  | Fin a, Fin b, Fin c, Fin d =>
      Fin (111000 * (Qabs (c - a) + Qabs (d - b)))
  | _, _, _, _ => Inf
  end.

Definition shelter_a : gmap string py_value :=
  list_to_map [("id", PyStr "S1"); ("name", PyStr "Shelter A");
               ("lat", PyFloat (Fin 9.955)); ("lon", PyFloat (Fin 76.267));
               ("capacity", PyInt 500)].

Definition shelter_b : gmap string py_value :=
  list_to_map [("id", PyStr "S2"); ("name", PyStr "Shelter B");
               ("lat", PyFloat (Fin 9.945)); ("lon", PyFloat (Fin 76.267));
               ("capacity", PyInt 300)].


End Scenario.

(** ** Facts about rounding *)

Module PyNumFacts.
Import PyNum.

Lemma round_half_even_floor_or_succ (q : Q) :
  round_half_even q = Qfloor q ∨ round_half_even q = (Qfloor q + 1)%Z.
Proof.
  unfold round_half_even.
  destruct (_ ?= _); [destruct (Z.even _) | |]; auto.
Qed.

Lemma round_half_even_inject (z : Z) : round_half_even (inject_Z z) = z.
Proof.
  unfold round_half_even. rewrite Qfloor_Z.
  assert (E : (inject_Z z - inject_Z z ?= 0.5) = Lt).
  { rewrite <- Qlt_alt. lra. }
  now rewrite E.
Qed.

Lemma round_half_even_mono (x y : Q) :
  x <= y → (round_half_even x <= round_half_even y)%Z.
Proof.
  intros Hxy.
  pose proof (Qfloor_resp_le _ _ Hxy) as Hf.
  destruct (Z.eq_dec (Qfloor x) (Qfloor y)) as [E | NE].
  - unfold round_half_even. rewrite <- E.
    destruct (Qcompare_spec (x - inject_Z (Qfloor x)) 0.5) as [Cx | Cx | Cx];
      destruct (Qcompare_spec (y - inject_Z (Qfloor x)) 0.5) as [Cy | Cy | Cy];
      try (destruct (Z.even (Qfloor x))); try lia; exfalso; lra.
  - destruct (round_half_even_floor_or_succ x) as [-> | ->],
             (round_half_even_floor_or_succ y) as [-> | ->]; lia.
Qed.

Lemma py_round_mono (x y : Q) (n : nat) : x <= y → py_round x n <= py_round y n.
Proof.
  intros Hxy. unfold py_round, Qle; simpl.
  apply Z.mul_le_mono_nonneg_r; [lia |].
  apply round_half_even_mono.
  apply Qmult_le_compat_r; [assumption |].
  unfold Qle; simpl; lia.
Qed.

Lemma py_round_inject (z : Z) (n : nat) : py_round (inject_Z z) n == inject_Z z.
Proof.
  unfold py_round.
  rewrite <- inject_Z_mult, round_half_even_inject.
  unfold Qeq; simpl. lia.
Qed.

Lemma py_round_unit_interval (x : Q) (n : nat) :
  0 <= x <= 1 → 0 <= py_round x n <= 1.
Proof.
  intros [H0 H1]. split.
  - rewrite <- (py_round_inject 0 n). now apply py_round_mono.
  - rewrite <- (py_round_inject 1 n). now apply py_round_mono.
Qed.

End PyNumFacts.

(** ** Facts about the hybrid risk formula *)

Module EngineFacts.
Import PyNum PyNumFacts Engine.

(** Division by a literal, as a multiplication [lra] understands. *)
Ltac qdiv_const :=
  unfold Qdiv in *;
  repeat match goal with
         | |- context [Qinv ?c] =>
             let c' := eval vm_compute in (Qinv c) in change (Qinv c) with c'
         | H : context [Qinv ?c] |- _ =>
             let c' := eval vm_compute in (Qinv c) in change (Qinv c) with c' in H
         end.

Lemma calculate_hybrid_risk_unfold w s v t r :
  calculate_hybrid_risk w s v t r =
  py_round
    (Qmax 0.0
       (Qmin 1.0
          (0.3 + indigenous_part s v + Qmin ((t / 3.0) * 0.2) 0.2
           + Qmin ((r / 500.0) * 0.15) 0.15 - Qmin (w / 100) 0.5))) 2.
Proof. reflexivity. Qed.

Lemma sea_state_rank_cases s i :
  sea_state_rank s = Some i →
  (s = "Calm" ∧ i = 0%nat) ∨ (s = "Choppy" ∧ i = 1%nat)
  ∨ (s = "Rough" ∧ i = 2%nat).
Proof.
  unfold sea_state_rank.
  repeat match goal with
         | |- context [String.eqb s ?c] =>
             destruct (String.eqb_spec s c) as [-> | _]; [intros [= <-]; auto |]
         end.
  discriminate.
Qed.

Lemma wind_speed_rank_cases s i :
  wind_speed_rank s = Some i →
  (s = "Normal" ∧ i = 0%nat) ∨ (s = "High" ∧ i = 1%nat)
  ∨ (s = "Very High" ∧ i = 2%nat).
Proof.
  unfold wind_speed_rank.
  repeat match goal with
         | |- context [String.eqb s ?c] =>
             destruct (String.eqb_spec s c) as [-> | _]; [intros [= <-]; auto |]
         end.
  discriminate.
Qed.

Lemma indigenous_part_sea_mono s s' v i j k :
  sea_state_rank s = Some i → sea_state_rank s' = Some j →
  wind_speed_rank v = Some k → (i ≤ j)%nat →
  indigenous_part s v <= indigenous_part s' v.
Proof.
  intros Hs Hs' Hv Hij.
  destruct (sea_state_rank_cases _ _ Hs) as [[-> ->] | [[-> ->] | [-> ->]]];
    destruct (sea_state_rank_cases _ _ Hs') as [[-> ->] | [[-> ->] | [-> ->]]];
    try lia;
    destruct (wind_speed_rank_cases _ _ Hv) as [[-> ->] | [[-> ->] | [-> ->]]];
    vm_compute; discriminate.
Qed.

Lemma indigenous_part_wind_mono s v v' i j k :
  wind_speed_rank v = Some i → wind_speed_rank v' = Some j →
  sea_state_rank s = Some k → (i ≤ j)%nat →
  indigenous_part s v <= indigenous_part s v'.
Proof.
  intros Hv Hv' Hs Hij.
  destruct (wind_speed_rank_cases _ _ Hv) as [[-> ->] | [[-> ->] | [-> ->]]];
    destruct (wind_speed_rank_cases _ _ Hv') as [[-> ->] | [[-> ->] | [-> ->]]];
    try lia;
    destruct (sea_state_rank_cases _ _ Hs) as [[-> ->] | [[-> ->] | [-> ->]]];
    vm_compute; discriminate.
Qed.

Lemma clamp_round_mono (x y : Q) :
  x <= y →
  py_round (Qmax 0.0 (Qmin 1.0 x)) 2 <= py_round (Qmax 0.0 (Qmin 1.0 y)) 2.
Proof.
  intros H. apply py_round_mono.
  apply Q.max_le_compat_l, Q.min_le_compat_l, H.
Qed.

Lemma clamp_round_bounds (x : Q) :
  0 <= py_round (Qmax 0.0 (Qmin 1.0 x)) 2 <= 1.
Proof.
  apply py_round_unit_interval. split.
  - apply Q.max_le_iff. left. lra.
  - apply Q.max_lub; [lra |].
    apply Qle_trans with 1.0; [apply Q.le_min_l | lra].
Qed.

End EngineFacts.

(** ** Facts about the tables and the reliability score *)

Module CommunityFacts.
Import PyNum PyNumFacts Community.

Section FilterAlter.
Context {A : Type} (P : Z * A → Prop) `{!∀ x, Decision (P x)}.

(** An UPDATE of one row does not change what a query selects when the
    query excludes that row's key. *)
Lemma filter_alter_excluded (f : A → A) (i : Z) (m : gmap Z A) :
  (∀ x, ¬ P (i, x)) → filter P (alter f i m) = filter P m.
Proof.
  intros HP. apply map_eq. intros k.
  rewrite !map_lookup_filter, lookup_alter.
  destruct (decide (i = k)) as [<- | Hne]; [| reflexivity].
  destruct (m !! i) as [x |]; simpl; [| reflexivity].
  rewrite !option_guard_False by apply HP. reflexivity.
Qed.
End FilterAlter.

Lemma max_rowid_bound {A} (tbl : gmap Z A) :
  (0 ≤ Db.max_rowid tbl)%Z
  ∧ ∀ k x, tbl !! k = Some x → (k ≤ Db.max_rowid tbl)%Z.
Proof.
  unfold Db.max_rowid.
  apply (map_fold_weak_ind
           (λ r (m : gmap Z A), (0 ≤ r)%Z ∧ ∀ k x, m !! k = Some x → (k ≤ r)%Z)).
  - split; [lia |]. intros k x. rewrite lookup_empty. discriminate.
  - intros i x m r _ [Hr IH]. split; [lia |].
    intros k y. rewrite lookup_insert.
    destruct (decide (i = k)) as [-> | _]; [lia |].
    intros Hk. specialize (IH _ _ Hk). lia.
Qed.

Lemma next_rowid_fresh {A} (tbl : gmap Z A) (seq : Z) :
  tbl !! Db.next_rowid tbl seq = None.
Proof.
  destruct (tbl !! Db.next_rowid tbl seq) as [x |] eqn:E; [| reflexivity].
  apply (proj2 (max_rowid_bound tbl)) in E.
  unfold Db.next_rowid in E. lia.
Qed.

Lemma next_rowid_positive {A} (tbl : gmap Z A) (seq : Z) :
  (1 ≤ Db.next_rowid tbl seq)%Z.
Proof.
  pose proof (proj1 (max_rowid_bound tbl)).
  unfold Db.next_rowid. lia.
Qed.

Lemma severity_weight_bounds (severity : string) :
  0.2 <= dict_get SEVERITY_LEVELS severity 0.5 <= 0.95.
Proof.
  unfold dict_get, SEVERITY_LEVELS.
  destruct (list_to_map _ !! severity) as [w |] eqn:E.
  - apply elem_of_list_to_map_2 in E.
    repeat (apply elem_of_cons in E as [[= _ ->] | E];
            [split; vm_compute; discriminate |]).
    inversion E.
  - split; vm_compute; discriminate.
Qed.

Lemma Qmin_one_unit (x : Q) : 0 <= x → 0 <= Qmin x 1.0 <= 1.
Proof.
  intros Hx. split.
  - apply Q.min_glb; lra.
  - apply Qle_trans with 1.0; [apply Q.le_min_r | lra].
Qed.

Lemma reliability_from_bounds (acc conf : Q) (severity : string)
    (validated n : Z) :
  0 <= acc <= 1 → 0 <= conf <= 1 →
  0 <= reliability_from acc conf severity validated n <= 1.
Proof.
  intros [Ha0 Ha1] [Hc0 Hc1].
  pose proof (severity_weight_bounds severity) as [Hw0 Hw1].
  assert (Hp0 : 0 <= acc * conf) by (apply Qmult_le_0_compat; assumption).
  assert (Hp1 : acc * conf <= 1).
  { apply Qle_trans with (1 * conf); [| lra].
    apply Qmult_le_compat_r; assumption. }
  unfold reliability_from.
  set (w := dict_get SEVERITY_LEVELS severity 0.5) in *.
  set (p := acc * conf) in *.
  assert (Hb : 0 <= p * 0.7 + w * 0.3 <= 1) by (split; lra).
  set (b := p * 0.7 + w * 0.3) in *.
  assert (Hv : 0 <= (if (validated =? 0)%Z then b else Qmin (b + 0.15) 1.0) <= 1).
  { destruct (validated =? 0)%Z; [assumption |]. apply Qmin_one_unit. lra. }
  set (b' := if (validated =? 0)%Z then b else Qmin (b + 0.15) 1.0) in *.
  destruct (n >? 0)%Z eqn:Hn; [| assumption].
  assert (0 <= inject_Z n).
  { change 0 with (inject_Z 0). rewrite <- Zle_Qle. lia. }
  apply Qmin_one_unit. lra.
Qed.

(** What the call does when the joined row exists. *)
Lemma calculate_observation_reliability_found (s : Db.t) (id : Z)
    (o : Observation.t) (c : Observer.t) :
  Db.observations s !! id = Some o →
  Db.observers s !! Observation.observer_id o = Some c →
  calculate_observation_reliability s id =
  (let base_score :=
     reliability_from (Observer.accuracy_score c)
       (Observation.confidence_level o) (Observation.severity o)
       (Observation.validated o) (corroboration_count s id o) in
   (py_round base_score 3,
    Db.with_observations
      (alter (Observation.set_reliability_score base_score) id) s)).
Proof.
  intros Ho Hc.
  unfold calculate_observation_reliability, observation_join_observer.
  rewrite Ho. simpl. rewrite Hc. simpl. reflexivity.
Qed.

(** What the call does when the join has no row. *)
Lemma calculate_observation_reliability_no_row (s : Db.t) (id : Z) :
  observation_join_observer s id = None →
  calculate_observation_reliability s id = (0.0, s).
Proof.
  intros E. unfold calculate_observation_reliability. now rewrite E.
Qed.

Lemma corroborates_self (id : Z) (lat lon : Q) (ty : string)
    (x : Observation.t) :
  corroborates id lat lon ty (id, x) ≠ true.
Proof.
  unfold corroborates. simpl. rewrite Z.eqb_refl, !andb_false_r. simpl.
  discriminate.
Qed.

(** Storing a reliability score does not change the corroboration count of
    the observation it is stored on. *)
Lemma corroboration_count_set_reliability (s : Db.t) (id : Z)
    (o : Observation.t) (r : Q) :
  corroboration_count
    (Db.with_observations (alter (Observation.set_reliability_score r) id) s)
    id (Observation.set_reliability_score r o)
  = corroboration_count s id o.
Proof.
  unfold corroboration_count. simpl.
  rewrite filter_alter_excluded; [reflexivity |].
  intros x. apply corroborates_self.
Qed.

(** What [validate_observation] does for an id that is in no row of the
    observations table: the UPDATE touches nothing, the INSERT into the
    history goes through and the call reports success. *)
Lemma validate_observation_missing_row (clk : clock) (s : Db.t) (id : Z)
    (validator_id : string) (is_valid : bool) (adjustment : Q)
    (notes : string) :
  Db.observations s !! id = None →
  let res := validate_observation clk s id validator_id is_valid adjustment notes in
  let k := Db.next_rowid (Db.validation_history s) (Db.validation_history_seq s) in
  res.1 = true
  ∧ Db.observations res.2 = Db.observations s
  ∧ Db.validation_history s !! k = None
  ∧ Db.validation_history res.2 !! k
    = Some (ValidationRecord.mk id validator_id (py_now_isoformat clk 1)
              (if is_valid then "VALID" else "INVALID") adjustment notes).
Proof.
  intros Ho. cbv zeta. unfold validate_observation. simpl.
  split; [reflexivity |]. split; [| split].
  - apply map_eq. intros j. rewrite lookup_alter.
    destruct (decide (id = j)) as [<- | _]; [now rewrite Ho | reflexivity].
  - apply next_rowid_fresh.
  - apply lookup_insert_eq.
Qed.

Lemma elem_of_insert_by_reliability (x r : score_row) (l : list score_row) :
  x ∈ insert_by_reliability r l → x = r ∨ x ∈ l.
Proof.
  induction l as [| y l IH]; simpl.
  - intros H. apply list_elem_of_singleton in H. auto.
  - destruct (Qle_bool _ _).
    + intros [-> | H]%elem_of_cons; [right; left |].
      destruct (IH H) as [-> | H']; [auto | right; right; assumption].
    + intros [-> | H]%elem_of_cons; auto.
Qed.

Lemma elem_of_order_by_reliability_desc (x : score_row) (l : list score_row) :
  x ∈ order_by_reliability_desc l → x ∈ l.
Proof.
  unfold order_by_reliability_desc.
  induction l as [| y l IH]; simpl; [trivial |].
  intros [-> | H]%elem_of_insert_by_reliability; [left | right; auto].
Qed.

Lemma length_insert_by_reliability (r : score_row) (l : list score_row) :
  length (insert_by_reliability r l) = S (length l).
Proof.
  induction l as [| y l IH]; simpl; [reflexivity |].
  destruct (Qle_bool _ _); simpl; [now rewrite IH | reflexivity].
Qed.

Lemma order_by_reliability_desc_nil (l : list score_row) :
  order_by_reliability_desc l = [] → l = [].
Proof.
  destruct l as [| y l]; [reflexivity |].
  unfold order_by_reliability_desc. simpl. intros E.
  apply (f_equal length) in E. rewrite length_insert_by_reliability in E.
  discriminate.
Qed.

Lemma elem_of_query_window clk s location hours_back (row : score_row) :
  row ∈ query_window clk s location hours_back →
  ∃ k o, Db.observations s !! k = Some o
         ∧ in_window clk location hours_back o = true
         ∧ row = row_of o.
Proof.
  unfold query_window. intros H%elem_of_order_by_reliability_desc.
  apply list_elem_of_fmap in H as (o & -> & H).
  apply list_elem_of_In, filter_In in H as [H Hw].
  apply list_elem_of_In, list_elem_of_fmap in H as ([k o'] & -> & H).
  apply elem_of_map_to_list in H. eauto.
Qed.


Lemma aggregate_known_types (rows : list score_row) :
  ∀ scores,
    has_all_types scores →
    (∀ row, row ∈ rows → row.1.1.1 ∈ OBSERVATION_TYPES) →
    ∃ scores', aggregate scores rows = Some scores' ∧ has_all_types scores'.
Proof.
  induction rows as [| row rows IH]; intros scores Hall Hrows; simpl.
  - eauto.
  - unfold add_contribution.
    destruct (Hall row.1.1.1) as [old Hold]; [apply Hrows; left |].
    rewrite Hold. simpl. apply IH.
    + intros ty Hty. rewrite lookup_insert.
      destruct (decide _); [eauto | apply Hall, Hty].
    + intros r Hr. apply Hrows. right. exact Hr.
Qed.

Lemma initial_scores_have_all_types :
  has_all_types
    (list_to_map
       [("anomalous_waves", 0.0); ("wind_pattern_shift", 0.0);
        ("tidal_anomaly", 0.0); ("wildlife_behavior", 0.0);
        ("coastal_erosion", 0.0); ("mangrove_stress", 0.0)]).
Proof.
  intros ty Hty. unfold OBSERVATION_TYPES in Hty.
  repeat (apply elem_of_cons in Hty as [-> | Hty]; [vm_compute; eauto |]).
  inversion Hty.
Qed.

Lemma score_rows_Some (df : list score_row) (d : indigenous_score) :
  score_rows df = Some d →
  ∃ wave wind tidal eco : Q,
    (wave <= 0.4 ∧ wind <= 0.3 ∧ tidal <= 0.25 ∧ eco <= 0.2)
    ∧ scored_from df d wave wind tidal eco.
Proof.
  unfold score_rows.
  destruct (aggregate _ df) as [scores |]; simpl; [| discriminate].
  repeat match goal with
         | |- context [scores !! ?key] =>
             destruct (scores !! key); simpl; [| discriminate]
         end.
  intros [= <-].
  do 4 eexists. split.
  - repeat split; apply Q.le_min_r.
  - repeat split.
Qed.

Lemma score_rows_known_types (df : list score_row) :
  (∀ row, row ∈ df → row.1.1.1 ∈ OBSERVATION_TYPES) →
  is_Some (score_rows df).
Proof.
  intros Hrows.
  destruct (aggregate_known_types df _ initial_scores_have_all_types Hrows)
    as (scores & Hagg & Hall).
  unfold score_rows. rewrite Hagg. simpl.
  repeat match goal with
         | |- context [scores !! ?key] =>
             let v := fresh "v" in
             let Hv := fresh "Hv" in
             destruct (Hall key) as [v Hv];
             [unfold OBSERVATION_TYPES; repeat constructor
             | rewrite Hv; simpl]
         end.
  eauto.
Qed.


(** The loop keeps, for each type, the running sum of the contributions
    of the rows of that type. *)
Lemma aggregate_type_score (rows : list score_row) :
  ∀ scores scores' : gmap string Q,
    aggregate scores rows = Some scores' →
    ∀ ty,
      scores' !! ty
      = (λ v, foldl (λ acc row,
                       if String.eqb row.1.1.1 ty then acc + contribution row
                       else acc) v rows) <$> scores !! ty.
Proof.
  induction rows as [| r rows IH]; intros scores scores'; simpl.
  - intros [= <-] ty. now destruct (scores !! ty).
  - unfold add_contribution at 1.
    destruct (scores !! r.1.1.1) as [old |] eqn:Eold; simpl; [| discriminate].
    intros Hagg ty. rewrite (IH _ _ Hagg ty), lookup_insert.
    destruct (String.eqb_spec r.1.1.1 ty) as [<- | Hne].
    + rewrite decide_True by reflexivity. rewrite Eold. reflexivity.
    + rewrite decide_False by exact Hne. reflexivity.
Qed.

(** What the [try] block returns, in terms of the sub-scores. *)
Lemma score_rows_values (df : list score_row) (d : indigenous_score) :
  score_rows df = Some d →
  d = {| wave_anomaly_score := Some (py_round (wave_score df) 3);
         wind_anomaly_score := Some (py_round (wind_score df) 3);
         tidal_anomaly_score := Some (py_round (tidal_score df) 3);
         ecosystem_stress_score := Some (py_round (ecosystem_score df) 3);
         total_indigenous_score := py_round (total_score df) 3;
         confidence :=
           py_round (Qmin (inject_Z (Z.of_nat (length df)) / 5) 1.0) 3;
         num_observations := Z.of_nat (length df);
         observations_summary := Some df |}.
Proof.
  unfold score_rows.
  destruct (aggregate _ df) as [scores |] eqn:Hagg; simpl; [| discriminate].
  pose proof (aggregate_type_score df _ _ Hagg) as Hty.
  rewrite (Hty "anomalous_waves"), (Hty "wind_pattern_shift"),
    (Hty "tidal_anomaly"), (Hty "wildlife_behavior"),
    (Hty "coastal_erosion"), (Hty "mangrove_stress").
  change ((list_to_map
             [("anomalous_waves", 0.0); ("wind_pattern_shift", 0.0);
              ("tidal_anomaly", 0.0); ("wildlife_behavior", 0.0);
              ("coastal_erosion", 0.0); ("mangrove_stress", 0.0)]
           : gmap string Q) !! "anomalous_waves") with (Some 0.0).
  change ((list_to_map
             [("anomalous_waves", 0.0); ("wind_pattern_shift", 0.0);
              ("tidal_anomaly", 0.0); ("wildlife_behavior", 0.0);
              ("coastal_erosion", 0.0); ("mangrove_stress", 0.0)]
           : gmap string Q) !! "wind_pattern_shift") with (Some 0.0).
  change ((list_to_map
             [("anomalous_waves", 0.0); ("wind_pattern_shift", 0.0);
              ("tidal_anomaly", 0.0); ("wildlife_behavior", 0.0);
              ("coastal_erosion", 0.0); ("mangrove_stress", 0.0)]
           : gmap string Q) !! "tidal_anomaly") with (Some 0.0).
  change ((list_to_map
             [("anomalous_waves", 0.0); ("wind_pattern_shift", 0.0);
              ("tidal_anomaly", 0.0); ("wildlife_behavior", 0.0);
              ("coastal_erosion", 0.0); ("mangrove_stress", 0.0)]
           : gmap string Q) !! "wildlife_behavior") with (Some 0.0).
  change ((list_to_map
             [("anomalous_waves", 0.0); ("wind_pattern_shift", 0.0);
              ("tidal_anomaly", 0.0); ("wildlife_behavior", 0.0);
              ("coastal_erosion", 0.0); ("mangrove_stress", 0.0)]
           : gmap string Q) !! "coastal_erosion") with (Some 0.0).
  change ((list_to_map
             [("anomalous_waves", 0.0); ("wind_pattern_shift", 0.0);
              ("tidal_anomaly", 0.0); ("wildlife_behavior", 0.0);
              ("coastal_erosion", 0.0); ("mangrove_stress", 0.0)]
           : gmap string Q) !! "mangrove_stress") with (Some 0.0).
  cbn [fmap option_fmap option_map mbind option_bind].
  intros [= <-].
  unfold total_score, wave_score, wind_score, tidal_score, ecosystem_score,
    type_score.
  reflexivity.
Qed.


End CommunityFacts.

Import PyNum PyNumFacts Engine EngineFacts Community CommunityFacts.

(** C1.  On valid inputs (non-negative width, tide and rainfall, a sea
    state among Calm/Choppy/Rough and a wind speed among Normal/High/Very
    High) [calculate_hybrid_risk] is within [0, 1]; it does not decrease
    when the sea state or the wind speed gets more severe or when the tide
    level or the rainfall grows, and it does not increase when the mangrove
    width grows, the other arguments being fixed. *)
Theorem calculate_hybrid_risk_bounded_monotone
    (w w' : Q) (s s' v v' : string) (t t' r r' : Q) (i i' j j' : nat) :
  0 <= w → w <= w' →
  sea_state_rank s = Some i → sea_state_rank s' = Some i' → (i ≤ i')%nat →
  wind_speed_rank v = Some j → wind_speed_rank v' = Some j' → (j ≤ j')%nat →
  0 <= t → t <= t' →
  0 <= r → r <= r' →
  (0 <= calculate_hybrid_risk w s v t r
   ∧ calculate_hybrid_risk w s v t r <= 1)
  ∧ calculate_hybrid_risk w s v t r <= calculate_hybrid_risk w s' v t r
  ∧ calculate_hybrid_risk w s v t r <= calculate_hybrid_risk w s v' t r
  ∧ calculate_hybrid_risk w s v t r <= calculate_hybrid_risk w s v t' r
  ∧ calculate_hybrid_risk w s v t r <= calculate_hybrid_risk w s v t r'
  ∧ calculate_hybrid_risk w' s v t r <= calculate_hybrid_risk w s v t r.
Proof.
  intros Hw Hww Hs Hs' Hi Hv Hv' Hj Ht Htt Hr Hrr.
  rewrite !calculate_hybrid_risk_unfold.
  split; [apply clamp_round_bounds |].
  repeat split; apply clamp_round_mono.
  - pose proof (indigenous_part_sea_mono s s' v _ _ _ Hs Hs' Hv Hi). lra.
  - pose proof (indigenous_part_wind_mono s v v' _ _ _ Hv Hv' Hs Hj). lra.
  - assert (Qmin (t / 3.0 * 0.2) 0.2 <= Qmin (t' / 3.0 * 0.2) 0.2).
    { apply Q.min_le_compat_r. qdiv_const. lra. }
    lra.
  - assert (Qmin (r / 500.0 * 0.15) 0.15 <= Qmin (r' / 500.0 * 0.15) 0.15).
    { apply Q.min_le_compat_r. qdiv_const. lra. }
    lra.
  - assert (Qmin (w / 100) 0.5 <= Qmin (w' / 100) 0.5).
    { apply Q.min_le_compat_r. qdiv_const. lra. }
    lra.
Qed.

Lemma calculate_hybrid_risk_bounded_monotone_witness :
  (0 <= calculate_hybrid_risk 10 "Calm" "Normal" 1 100
   ∧ calculate_hybrid_risk 10 "Calm" "Normal" 1 100 <= 1)
  ∧ calculate_hybrid_risk 10 "Calm" "Normal" 1 100
    <= calculate_hybrid_risk 10 "Rough" "Normal" 1 100
  ∧ calculate_hybrid_risk 10 "Calm" "Normal" 1 100
    <= calculate_hybrid_risk 10 "Calm" "High" 1 100
  ∧ calculate_hybrid_risk 10 "Calm" "Normal" 1 100
    <= calculate_hybrid_risk 10 "Calm" "Normal" 2 100
  ∧ calculate_hybrid_risk 10 "Calm" "Normal" 1 100
    <= calculate_hybrid_risk 10 "Calm" "Normal" 1 300
  ∧ calculate_hybrid_risk 40 "Calm" "Normal" 1 100
    <= calculate_hybrid_risk 10 "Calm" "Normal" 1 100.
Proof.
  apply (calculate_hybrid_risk_bounded_monotone
           10 40 "Calm" "Rough" "Normal" "High" 1 2 100 300 0 2 0 1);
    solve [reflexivity | lia | vm_compute; discriminate].
Defined.

(** C6.  [calculate_hybrid_risk(85, "Calm", "Normal", 0, 0)] is 0.0 and
    [calculate_hybrid_risk(0, "Rough", "Very High", 3.0, 500)] is 1.0. *)
Theorem calculate_hybrid_risk_examples :
  calculate_hybrid_risk 85 "Calm" "Normal" 0 0 == 0.0
  ∧ calculate_hybrid_risk 0 "Rough" "Very High" 3.0 500 == 1.0.
Proof. split; vm_compute; reflexivity. Qed.

(** C3.  For a stored observation whose observer has an accuracy score in
    [0, 1] and whose confidence is in [0, 1], the value
    [calculate_observation_reliability] returns is in [0, 1]; the score
    formula stays in [0, 1] for every validation flag and every
    corroboration count, so neither boost pushes it above 1. *)
Theorem reliability_in_unit_interval
    (s : Db.t) (id : Z) (o : Observation.t) (c : Observer.t) :
  Db.observations s !! id = Some o →
  Db.observers s !! Observation.observer_id o = Some c →
  0 <= Observer.accuracy_score c <= 1 →
  0 <= Observation.confidence_level o <= 1 →
  (calculate_observation_reliability s id).1
  = py_round
      (reliability_from (Observer.accuracy_score c)
         (Observation.confidence_level o) (Observation.severity o)
         (Observation.validated o) (corroboration_count s id o)) 3
  ∧ 0 <= (calculate_observation_reliability s id).1 <= 1
  ∧ ∀ validated count : Z,
      0 <= reliability_from (Observer.accuracy_score c)
             (Observation.confidence_level o) (Observation.severity o)
             validated count <= 1.
Proof.
  intros Ho Hc Hacc Hconf.
  rewrite (calculate_observation_reliability_found s id o c Ho Hc). simpl.
  split; [reflexivity |]. split.
  - apply py_round_unit_interval, reliability_from_bounds; assumption.
  - intros v n. apply reliability_from_bounds; assumption.
Qed.

Lemma reliability_in_unit_interval_witness :
  0 <= (calculate_observation_reliability Scenario.db_validated 1).1 <= 1.
Proof.
  eapply (reliability_in_unit_interval Scenario.db_validated 1).
  - vm_compute. reflexivity.
  - vm_compute. reflexivity.
  - split; vm_compute; discriminate.
  - split; vm_compute; discriminate.
Defined.

(** C8.  For an observation id that is not in the store,
    [calculate_observation_reliability] returns 0.0 (it returns, it does not
    raise) and the store is left as it was. *)
Theorem reliability_of_missing_observation (s : Db.t) (id : Z) :
  Db.observations s !! id = None →
  calculate_observation_reliability s id = (0.0, s).
Proof.
  intros Ho. apply calculate_observation_reliability_no_row.
  unfold observation_join_observer. now rewrite Ho.
Qed.

Lemma reliability_of_missing_observation_witness :
  calculate_observation_reliability Scenario.db_reported 2
  = (0.0, Scenario.db_reported).
Proof.
  apply (reliability_of_missing_observation Scenario.db_reported 2).
  vm_compute. reflexivity.
Defined.

(** C10.  For an observation that exists but whose observer_id is not a
    registered observer, the join has no row:
    [calculate_observation_reliability] returns 0.0 and writes nothing, so
    the observation keeps the reliability score it had. *)
Theorem reliability_of_unregistered_observer
    (s : Db.t) (id : Z) (o : Observation.t) :
  Db.observations s !! id = Some o →
  Db.observers s !! Observation.observer_id o = None →
  calculate_observation_reliability s id = (0.0, s)
  ∧ Db.observations (calculate_observation_reliability s id).2 !! id = Some o.
Proof.
  intros Ho Hc.
  assert (E : calculate_observation_reliability s id = (0.0, s)).
  { apply calculate_observation_reliability_no_row.
    unfold observation_join_observer. rewrite Ho. simpl. now rewrite Hc. }
  rewrite E. split; [reflexivity | exact Ho].
Qed.

Lemma reliability_of_unregistered_observer_witness :
  calculate_observation_reliability Scenario.db_anonymous 1
  = (0.0, Scenario.db_anonymous).
Proof.
  edestruct (reliability_of_unregistered_observer Scenario.db_anonymous 1)
    as [E _].
  - vm_compute. reflexivity.
  - vm_compute. reflexivity.
  - exact E.
Defined.

(** C9.  Calling [calculate_observation_reliability] twice in a row on the
    same observation id returns the same value the second time, and the
    second call leaves the store as the first one left it. *)
Theorem reliability_twice_same (s : Db.t) (id : Z) :
  (calculate_observation_reliability
     (calculate_observation_reliability s id).2 id).1
  = (calculate_observation_reliability s id).1
  ∧ (calculate_observation_reliability
       (calculate_observation_reliability s id).2 id).2
    = (calculate_observation_reliability s id).2.
Proof.
  destruct (observation_join_observer s id) as [row |] eqn:J.
  - unfold observation_join_observer in J.
    destruct (Db.observations s !! id) as [o |] eqn:Ho; [| discriminate].
    simpl in J.
    destruct (Db.observers s !! Observation.observer_id o) as [c |] eqn:Hc;
      [| discriminate].
    clear J row.
    rewrite (calculate_observation_reliability_found s id o c Ho Hc).
    cbv zeta. cbn [fst snd].
    set (b := reliability_from _ _ _ _ _).
    set (s' := Db.with_observations _ s).
    assert (Ho' : Db.observations s' !! id
                  = Some (Observation.set_reliability_score b o)).
    { subst s'. simpl. rewrite lookup_alter_eq, Ho. reflexivity. }
    rewrite (calculate_observation_reliability_found s' id _ c Ho' Hc).
    cbv zeta. cbn [fst snd].
    subst s'. rewrite corroboration_count_set_reliability.
    cbn [Observation.confidence_level Observation.severity
         Observation.validated Observation.set_reliability_score].
    fold b. split; [reflexivity |].
    unfold Db.with_observations. simpl. f_equal.
    apply map_eq. intros k.
    destruct (decide (id = k)) as [<- | Hne].
    + rewrite !lookup_alter_eq, Ho. reflexivity.
    + rewrite !lookup_alter_ne by assumption. reflexivity.
  - rewrite (calculate_observation_reliability_no_row s id J). simpl.
    rewrite (calculate_observation_reliability_no_row s id J). auto.
Qed.

(** C4, as the code has it.  For an observation whose observer is
    registered, [calculate_observation_reliability] stores the score as
    computed, without rounding, and returns that score rounded to 3
    decimals: the returned value is the stored [reliability_score] rounded
    to 3 decimals. *)
Theorem reliability_returned_is_stored_rounded
    (s : Db.t) (id : Z) (o : Observation.t) (c : Observer.t) :
  Db.observations s !! id = Some o →
  Db.observers s !! Observation.observer_id o = Some c →
  ∃ o' : Observation.t,
    Db.observations (calculate_observation_reliability s id).2 !! id = Some o'
    ∧ Observation.reliability_score o'
      = reliability_from (Observer.accuracy_score c)
          (Observation.confidence_level o) (Observation.severity o)
          (Observation.validated o) (corroboration_count s id o)
    ∧ (calculate_observation_reliability s id).1
      = py_round (Observation.reliability_score o') 3.
Proof.
  intros Ho Hc.
  rewrite (calculate_observation_reliability_found s id o c Ho Hc).
  cbv zeta. cbn [fst snd].
  eexists. split.
  - simpl. rewrite lookup_alter_eq, Ho. reflexivity.
  - split; reflexivity.
Qed.

Lemma reliability_returned_is_stored_rounded_witness :
  ∃ o' : Observation.t,
    Db.observations
      (calculate_observation_reliability Scenario.db_reported 1).2 !! 1%Z
    = Some o'
    ∧ (calculate_observation_reliability Scenario.db_reported 1).1
      = py_round (Observation.reliability_score o') 3.
Proof.
  edestruct (reliability_returned_is_stored_rounded Scenario.db_reported 1)
    as (o' & H1 & _ & H3).
  - vm_compute. reflexivity.
  - vm_compute. reflexivity.
  - exists o'. split; assumption.
Defined.

(** C4, as stated, fails: after scoring observation 1 of the sample
    database the stored score is 0.19305 and the returned one is 0.193. *)
Lemma stored_reliability_is_not_the_returned_value :
  ∃ o' : Observation.t,
    Db.observations
      (calculate_observation_reliability Scenario.db_reported 1).2 !! 1%Z
    = Some o'
    ∧ Observation.reliability_score o' == 0.19305
    ∧ (calculate_observation_reliability Scenario.db_reported 1).1 == 0.193
    ∧ ¬ Observation.reliability_score o'
        == (calculate_observation_reliability Scenario.db_reported 1).1.
Proof.
  eexists. split; [vm_compute; reflexivity |].
  repeat split; vm_compute; congruence.
Qed.

(** C7.  Submitting an observation under an observer id that is not in
    the observers table succeeds: the call returns the id of a new row (at
    least 1, so not the failure value -1, and not the id of a row that was
    there before), and the stored row has observer_name "Anonymous". *)
Theorem submit_observation_unknown_observer
    (clk : clock) (s : Db.t) (observer_id obs_type description : string)
    (location : Q * Q) (severity : string) (confidence : Q) :
  Db.observers s !! observer_id = None →
  let res := submit_observation clk s observer_id obs_type description
               location severity confidence in
  (1 ≤ res.1)%Z
  ∧ res.1 ≠ (-1)%Z
  ∧ Db.observations s !! res.1 = None
  ∧ ∃ o : Observation.t,
      Db.observations res.2 !! res.1 = Some o
      ∧ Observation.observer_id o = observer_id
      ∧ Observation.observer_name o = "Anonymous".
Proof.
  intros Hc. cbv zeta. unfold submit_observation. rewrite Hc. simpl.
  pose proof (next_rowid_positive (Db.observations s) (Db.observations_seq s)).
  split; [assumption |]. split; [lia |]. split.
  - apply next_rowid_fresh.
  - eexists. split; [apply lookup_insert_eq |]. split; reflexivity.
Qed.

Lemma submit_observation_unknown_observer_witness :
  let res := submit_observation Scenario.clk Scenario.db_reported "ghost"
               "tidal_anomaly" "tide did not recede" (19.0, 72.8) "HIGH" 0.7 in
  res.1 = 2%Z
  ∧ ∃ o : Observation.t,
      Db.observations res.2 !! res.1 = Some o
      ∧ Observation.observer_name o = "Anonymous".
Proof.
  cbv zeta. split; [vm_compute; reflexivity |].
  destruct (submit_observation_unknown_observer Scenario.clk
              Scenario.db_reported "ghost" "tidal_anomaly"
              "tide did not recede" (19.0, 72.8) "HIGH" 0.7)
    as (_ & _ & _ & o & Ho & _ & Hn).
  - vm_compute. reflexivity.
  - exists o. split; assumption.
Defined.

(** C2, on the code.  Validating observation id 7 in a database that has
    no observation at all returns [True], leaves the observations table
    empty and adds a validation_history row for observation id 7. *)
Theorem validate_observation_unknown_id_succeeds
    (clk : clock) (validator_id : string) (is_valid : bool) (adjustment : Q)
    (notes : string) :
  let res := validate_observation clk Db.initial 7 validator_id is_valid
               adjustment notes in
  res.1 = true
  ∧ Db.observations res.2 = ∅
  ∧ Db.validation_history Db.initial !! 1%Z = None
  ∧ ∃ r : ValidationRecord.t,
      Db.validation_history res.2 !! 1%Z = Some r
      ∧ ValidationRecord.observation_id r = 7%Z
      ∧ Db.observations res.2 !! ValidationRecord.observation_id r = None.
Proof.
  destruct (validate_observation_missing_row clk Db.initial 7 validator_id
              is_valid adjustment notes) as (H1 & H2 & H3 & H4).
  { apply lookup_empty. }
  cbv zeta. split; [assumption |]. split; [assumption |].
  split; [apply lookup_empty |].
  eexists. split; [exact H4 |]. split; [reflexivity |].
  cbn [ValidationRecord.observation_id]. rewrite H2. apply lookup_empty.
Qed.



(** C5 as the claim has it fails twice.  With a wave and a wind report of
    reliability 0.4016 and severity HIGH, the sub-scores come back as 0.1
    and 0.1 (from 0.1004 each) and the total as 0.201, which is not
    [min(0.1 + 0.1 + 0 + 0, 1.0)].  And on the evening of 16 January, when
    the cut-off for 24 hours is 20:00:00 on 15 January, the one validated
    report of the store, made at 09:30:00 on 15 January, is before the
    cut-off and is counted all the same: its timestamp ["...T09:30:00"] is,
    as text, after ["... 20:00:00"]. *)
Lemma indigenous_total_not_sum_and_stale_report_counted :
  ¬ total_is_capped_sum_of_returned
      (calculate_indigenous_score_from_observations Scenario.clk
         Scenario.db_two_kinds (19.0, 72.8) 24)
  ∧ sqlite_datetime_now Scenario.clk_next_evening "-24 hours"
    = Some "2026-01-15 20:00:00"
  ∧ (∀ k o, Db.observations Scenario.db_scored !! k = Some o →
            earlier (Observation.timestamp o) "2026-01-15 20:00:00" = true)
  ∧ num_observations
      (calculate_indigenous_score_from_observations Scenario.clk_next_evening
         Scenario.db_scored (19.0, 72.8) 24) = 1%Z
  ∧ ¬ total_indigenous_score
        (calculate_indigenous_score_from_observations
           Scenario.clk_next_evening Scenario.db_scored (19.0, 72.8) 24) == 0.
Proof.
  split; [| split; [| split; [| split]]].
  - intros (wave & wind & tidal & eco & H1 & H2 & H3 & H4 & Ht).
    vm_compute in H1, H2, H3, H4.
    injection H1 as <-. injection H2 as <-.
    injection H3 as <-. injection H4 as <-.
    vm_compute in Ht. discriminate.
  - vm_compute. reflexivity.
  - apply (bool_decide_unpack
             (map_Forall (λ _ o, earlier (Observation.timestamp o)
                                   "2026-01-15 20:00:00" = true)
                (Db.observations Scenario.db_scored))).
    vm_compute. exact I.
  - vm_compute. reflexivity.
  - vm_compute. discriminate.
Qed.

(** ** More facts about rounding *)

Module PyNumMoreFacts.
Import PyNum.

Lemma round_half_even_proper (x y : Q) :
  x == y → round_half_even x = round_half_even y.
Proof.
  intros E. unfold round_half_even.
  rewrite (Qfloor_comp _ _ E).
  assert (C : Qcompare (x - inject_Z (Qfloor y)) 0.5
              = Qcompare (y - inject_Z (Qfloor y)) 0.5).
  { apply Qcompare_comp; [rewrite E |]; reflexivity. }
  now rewrite C.
Qed.

Lemma py_round_proper (x y : Q) (n : nat) : x == y → py_round x n = py_round y n.
Proof.
  intros E. unfold py_round. f_equal.
  apply round_half_even_proper. now rewrite E.
Qed.
End PyNumMoreFacts.
Import PyNumMoreFacts.

(** * Further properties of the code *)

(** ** engine.py *)

(** X1.  The three environmental terms of [calculate_hybrid_risk] saturate:
    a tide level of 3 or more gives the result of tide level 3, a rainfall
    of 500 or more the result of rainfall 500, and a mangrove width of 50 or
    more the result of width 50. *)
Theorem calculate_hybrid_risk_saturates
    (w : Q) (s v : string) (t r : Q) :
  (3 <= t → calculate_hybrid_risk w s v t r = calculate_hybrid_risk w s v 3 r)
  ∧ (500 <= r → calculate_hybrid_risk w s v t r = calculate_hybrid_risk w s v t 500)
  ∧ (50 <= w → calculate_hybrid_risk w s v t r = calculate_hybrid_risk 50 s v t r).
Proof.
  rewrite !calculate_hybrid_risk_unfold.
  repeat split; intros H; apply py_round_proper.
  - assert (E1 : Qmin (t / 3.0 * 0.2) 0.2 == 0.2) by (apply Q.min_r; qdiv_const; lra).
    assert (E2 : Qmin (3 / 3.0 * 0.2) 0.2 == 0.2) by (apply Q.min_r; qdiv_const; lra).
    now rewrite E1, E2.
  - assert (E1 : Qmin (r / 500.0 * 0.15) 0.15 == 0.15) by (apply Q.min_r; qdiv_const; lra).
    assert (E2 : Qmin (500 / 500.0 * 0.15) 0.15 == 0.15) by (apply Q.min_r; qdiv_const; lra).
    now rewrite E1, E2.
  - assert (E1 : Qmin (w / 100) 0.5 == 0.5) by (apply Q.min_r; qdiv_const; lra).
    assert (E2 : Qmin (50 / 100) 0.5 == 0.5) by (apply Q.min_r; qdiv_const; lra).
    now rewrite E1, E2.
Qed.

Lemma calculate_hybrid_risk_saturates_witness :
  calculate_hybrid_risk 85 "Choppy" "High" 4.2 100
  = calculate_hybrid_risk 85 "Choppy" "High" 3 100
  ∧ calculate_hybrid_risk 85 "Choppy" "High" 1 800
    = calculate_hybrid_risk 85 "Choppy" "High" 1 500
  ∧ calculate_hybrid_risk 85 "Choppy" "High" 1 100
    = calculate_hybrid_risk 50 "Choppy" "High" 1 100.
Proof.
  split; [| split].
  - apply (calculate_hybrid_risk_saturates 85 "Choppy" "High" 4.2 100).
    vm_compute. discriminate.
  - apply (calculate_hybrid_risk_saturates 85 "Choppy" "High" 1 800).
    vm_compute. discriminate.
  - apply (calculate_hybrid_risk_saturates 85 "Choppy" "High" 1 100).
    vm_compute. discriminate.
Defined.

(** X2.  [calculate_hybrid_risk] compares its two labels with the exact
    strings it knows and has no other case: any sea state other than
    "Rough" and "Choppy" gives the result of "Calm", any wind speed other
    than "Very High" and "High" the result of "Normal".  In particular a
    sea state that [validate_sea_state] rejects is not an error for
    [calculate_hybrid_risk]: it counts as "Calm". *)
Theorem calculate_hybrid_risk_unrecognised_labels
    (w : Q) (s v : string) (t r : Q) :
  (s ≠ "Rough" → s ≠ "Choppy" →
   calculate_hybrid_risk w s v t r = calculate_hybrid_risk w "Calm" v t r)
  ∧ (v ≠ "Very High" → v ≠ "High" →
     calculate_hybrid_risk w s v t r = calculate_hybrid_risk w s "Normal" t r)
  ∧ ((Validation.validate_sea_state (PyStr s)).1 = false →
     calculate_hybrid_risk w s v t r = calculate_hybrid_risk w "Calm" v t r).
Proof.
  rewrite !calculate_hybrid_risk_unfold. unfold indigenous_part.
  split; [| split].
  - intros H1 H2. apply String.eqb_neq in H1, H2. rewrite H1, H2. reflexivity.
  - intros H1 H2. apply String.eqb_neq in H1, H2. rewrite H1, H2. reflexivity.
  - unfold Validation.validate_sea_state, Validation.in_valid_states.
    simpl.
    destruct (String.eqb s "Calm"); [discriminate |].
    destruct (String.eqb s "Choppy"); [discriminate |].
    destruct (String.eqb s "Rough"); [discriminate | reflexivity].
Qed.

Lemma calculate_hybrid_risk_unrecognised_labels_witness :
  calculate_hybrid_risk 20 "rough" "High" 1 100
  = calculate_hybrid_risk 20 "Calm" "High" 1 100
  ∧ calculate_hybrid_risk 20 "Rough" "Gale" 1 100
    = calculate_hybrid_risk 20 "Rough" "Normal" 1 100.
Proof.
  split.
  - destruct (calculate_hybrid_risk_unrecognised_labels 20 "rough" "High" 1 100)
      as (H & _ & _).
    apply H; discriminate.
  - destruct (calculate_hybrid_risk_unrecognised_labels 20 "Rough" "Gale" 1 100)
      as (_ & H & _).
    apply H; discriminate.
Defined.

Module ValidatorFacts.


(** The corroboration query does not select the row it is asked about, so
    an UPDATE of that row leaves its count as it was. *)
Lemma corroboration_count_alter_self (s : Db.t) (id : Z)
    (f : Observation.t → Observation.t) (o o' : Observation.t) :
  Observation.location_lat o' = Observation.location_lat o →
  Observation.location_lon o' = Observation.location_lon o →
  Observation.observation_type o' = Observation.observation_type o →
  corroboration_count (Db.with_observations (alter f id) s) id o'
  = corroboration_count s id o.
Proof.
  intros E1 E2 E3. unfold corroboration_count. simpl.
  rewrite E1, E2, E3.
  rewrite filter_alter_excluded; [reflexivity |].
  intros x. apply corroborates_self.
Qed.

Lemma corroboration_count_nonneg (s : Db.t) (id : Z) (o : Observation.t) :
  (0 ≤ corroboration_count s id o)%Z.
Proof. unfold corroboration_count. lia. Qed.

(** Validating a row can only add it to what the corroboration query of
    another observation selects. *)
Lemma corroboration_count_validate_other (s : Db.t) (id other : Z)
    (who when : string) (o : Observation.t) :
  (corroboration_count s id o
   ≤ corroboration_count
       (Db.with_observations
          (alter (Observation.set_validation 1 who when) other) s) id o)%Z.
Proof.
  unfold corroboration_count. simpl.
  apply inj_le. rewrite <- !size_dom. apply subseteq_size.
  intros k. rewrite !elem_of_dom. intros [x Hx].
  apply map_lookup_filter_Some in Hx as [Hk HP].
  destruct (decide (other = k)) as [-> | Hne].
  - exists (Observation.set_validation 1 who when x).
    apply map_lookup_filter_Some. split.
    + rewrite lookup_alter_eq, Hk. reflexivity.
    + revert HP. unfold corroborates. simpl.
      rewrite !andb_true_iff. intros [[[[? ?] ?] ?] ?]. auto.
  - exists x. apply map_lookup_filter_Some. split; [| exact HP].
    rewrite lookup_alter_ne by assumption. exact Hk.
Qed.

(** The score as a function of the validation flag and of the count, for
    an observer accuracy and a confidence in [0, 1]. *)
Lemma reliability_from_mono (acc conf : Q) (severity : string)
    (v1 v2 n1 n2 : Z) :
  0 <= acc <= 1 → 0 <= conf <= 1 →
  (v1 = 0%Z ∨ v2 ≠ 0%Z) → (n1 ≤ n2)%Z →
  reliability_from acc conf severity v1 n1
  <= reliability_from acc conf severity v2 n2.
Proof.
  intros [Ha0 Ha1] [Hc0 Hc1] Hv Hn.
  pose proof (severity_weight_bounds severity) as [Hw0 Hw1].
  assert (Hp0 : 0 <= acc * conf) by (apply Qmult_le_0_compat; assumption).
  assert (Hp1 : acc * conf <= 1).
  { apply Qle_trans with (1 * conf); [| lra].
    apply Qmult_le_compat_r; assumption. }
  unfold reliability_from.
  set (w := dict_get SEVERITY_LEVELS severity 0.5) in *.
  set (p := acc * conf) in *.
  assert (Hb : 0 <= p * 0.7 + w * 0.3 <= 1) by (split; lra).
  set (b := p * 0.7 + w * 0.3) in *.
  assert (Hboost : b <= Qmin (b + 0.15) 1.0 <= 1).
  { split; [apply Q.min_glb; lra | apply Qmin_one_unit; lra]. }
  set (b1 := if (v1 =? 0)%Z then b else Qmin (b + 0.15) 1.0).
  set (b2 := if (v2 =? 0)%Z then b else Qmin (b + 0.15) 1.0).
  assert (H12 : b1 <= b2 ∧ b2 <= 1).
  { subst b1 b2.
    destruct (Z.eqb_spec v1 0), (Z.eqb_spec v2 0); try lra.
    destruct Hv; contradiction. }
  destruct H12 as [H12 H21].
  assert (Hq : inject_Z n1 <= inject_Z n2) by (now rewrite <- Zle_Qle).
  destruct (n1 >? 0)%Z eqn:E1, (n2 >? 0)%Z eqn:E2; try lia.
  - apply Q.min_le_compat_r. lra.
  - assert (0 <= inject_Z n2).
    { change 0 with (inject_Z 0). rewrite <- Zle_Qle. lia. }
    apply Q.min_glb; lra.
  - exact H12.
Qed.

End ValidatorFacts.
Import ValidatorFacts.

(** ** community_reports.py: the write path *)

(** X3.  [register_observer] is INSERT OR IGNORE: registering an id a
    second time, with whatever name, role and position, returns [True] and
    changes nothing; a new id gets accuracy 0.5, no observations and no
    verification, an id that was there keeps its row. *)
Theorem register_observer_keeps_first_registration
    (clk clk' : clock) (s : Db.t) (observer_id name role name' role' : string)
    (lat lon lat' lon' : Q) :
  let s1 := (register_observer clk s observer_id name role lat lon).2 in
  register_observer clk' s1 observer_id name' role' lat' lon' = (true, s1)
  ∧ (Db.observers s !! observer_id = None →
     Db.observers s1 !! observer_id
     = Some (Observer.mk name role lat lon 0 0.5 (py_now_isoformat clk 0) 0))
  ∧ (∀ c, Db.observers s !! observer_id = Some c →
          Db.observers s1 !! observer_id = Some c).
Proof.
  cbv zeta. unfold register_observer.
  destruct (Db.observers s !! observer_id) as [c |] eqn:E; simpl.
  - rewrite E. split; [reflexivity | split; [discriminate | auto]].
  - rewrite lookup_insert_eq. split; [reflexivity | split; [auto | discriminate]].
Qed.

(** X4.  [register_observer] touches no other observer and neither the
    observations nor the validation history. *)
Theorem register_observer_frame
    (clk : clock) (s : Db.t) (observer_id name role : string) (lat lon : Q) :
  let s1 := (register_observer clk s observer_id name role lat lon).2 in
  (∀ j, j ≠ observer_id → Db.observers s1 !! j = Db.observers s !! j)
  ∧ Db.observations s1 = Db.observations s
  ∧ Db.validation_history s1 = Db.validation_history s.
Proof.
  cbv zeta. unfold register_observer.
  destruct (Db.observers s !! observer_id) as [c |] eqn:E; simpl.
  - auto.
  - repeat split. intros j Hj. now apply lookup_insert_ne.
Qed.

(** X5.  When the observer is registered, [submit_observation] stores the
    observer's registered name on the new observation and adds one to that
    observer's total_observations, keeping the observer's name, accuracy
    score and verification flag; no other observer changes. *)
Theorem submit_observation_registered
    (clk : clock) (s : Db.t) (observer_id obs_type description : string)
    (location : Q * Q) (severity : string) (confidence : Q) (c : Observer.t) :
  Db.observers s !! observer_id = Some c →
  let res := submit_observation clk s observer_id obs_type description
               location severity confidence in
  (∃ o, Db.observations res.2 !! res.1 = Some o
        ∧ Observation.observer_name o = Observer.name c)
  ∧ (∃ c', Db.observers res.2 !! observer_id = Some c'
           ∧ Observer.total_observations c'
             = (Observer.total_observations c + 1)%Z
           ∧ Observer.name c' = Observer.name c
           ∧ Observer.accuracy_score c' = Observer.accuracy_score c
           ∧ Observer.is_verified c' = Observer.is_verified c)
  ∧ (∀ j, j ≠ observer_id → Db.observers res.2 !! j = Db.observers s !! j).
Proof.
  intros Hc. cbv zeta. unfold submit_observation. rewrite Hc. simpl.
  split; [| split].
  - eexists. split; [apply lookup_insert_eq | reflexivity].
  - eexists. rewrite lookup_alter_eq, Hc. simpl. repeat split.
  - intros j Hj. now apply lookup_alter_ne.
Qed.

(** X6.  [submit_observation] returns an id larger than every id in the
    table, keeps every row that was there, and adds exactly one row: the
    submitted columns, not validated, no validator, reliability score 0.0.
    The validation history is left alone. *)
Theorem submit_observation_new_row
    (clk : clock) (s : Db.t) (observer_id obs_type description : string)
    (location : Q * Q) (severity : string) (confidence : Q) :
  let res := submit_observation clk s observer_id obs_type description
               location severity confidence in
  (∀ k x, Db.observations s !! k = Some x →
          (k < res.1)%Z ∧ Db.observations res.2 !! k = Some x)
  ∧ (∃ name,
       Db.observations res.2 !! res.1
       = Some (Observation.mk observer_id name location.1 location.2 obs_type
                 description confidence (py_now_isoformat clk 0) severity 0
                 None None 0.0))
  ∧ size (Db.observations res.2) = S (size (Db.observations s))
  ∧ Db.validation_history res.2 = Db.validation_history s.
Proof.
  cbv zeta. unfold submit_observation, Db.insert_observation.
  cbn [fst snd Db.observations Db.with_observers Db.validation_history].
  set (new := Db.next_rowid (Db.observations s) (Db.observations_seq s)).
  split; [| split; [| split]].
  - intros k x Hk.
    pose proof (proj2 (max_rowid_bound (Db.observations s)) _ _ Hk) as Hle.
    split; [subst new; unfold Db.next_rowid; lia |].
    rewrite lookup_insert_ne; [assumption |].
    intros <-. subst new. rewrite next_rowid_fresh in Hk. discriminate.
  - eexists. apply lookup_insert_eq.
  - apply map_size_insert_None, next_rowid_fresh.
  - reflexivity.
Qed.



(** X8.  Accepting an observation never gives it a lower score than
    rejecting it: for a registered observer with accuracy in [0, 1] and a
    confidence in [0, 1], the reliability computed after
    [validate_observation(..., is_valid=False)] is at most the one computed
    after [validate_observation(..., is_valid=True)]. *)
Theorem validation_does_not_lower_reliability
    (clk clk' : clock) (s : Db.t) (id : Z) (who who' : string)
    (adj adj' : Q) (notes notes' : string)
    (o : Observation.t) (c : Observer.t) :
  Db.observations s !! id = Some o →
  Db.observers s !! Observation.observer_id o = Some c →
  0 <= Observer.accuracy_score c <= 1 →
  0 <= Observation.confidence_level o <= 1 →
  (calculate_observation_reliability
     (validate_observation clk s id who false adj notes).2 id).1
  <= (calculate_observation_reliability
        (validate_observation clk' s id who' true adj' notes').2 id).1.
Proof.
  intros Ho Hc Hacc Hconf.
  set (sf := (validate_observation clk s id who false adj notes).2).
  set (st := (validate_observation clk' s id who' true adj' notes').2).
  assert (Hof : Db.observations sf !! id
                = Some (Observation.set_validation 0 who
                          (py_now_isoformat clk 0) o)).
  { subst sf. simpl. rewrite lookup_alter_eq, Ho. reflexivity. }
  assert (Hot : Db.observations st !! id
                = Some (Observation.set_validation 1 who'
                          (py_now_isoformat clk' 0) o)).
  { subst st. simpl. rewrite lookup_alter_eq, Ho. reflexivity. }
  rewrite (calculate_observation_reliability_found sf id _ c Hof Hc).
  rewrite (calculate_observation_reliability_found st id _ c Hot Hc).
  cbv zeta. cbn [fst].
  apply py_round_mono.
  cbn [Observation.confidence_level Observation.severity
       Observation.validated Observation.set_validation].
  apply reliability_from_mono; [assumption | assumption | now left |].
  subst sf st. unfold validate_observation, Db.insert_validation.
  cbn [snd].
  change (Db.mk ?a ?b ?c ?d ?e) with (Db.mk a b c d e).
  match goal with
  | |- (corroboration_count ?s1 _ _ ≤ corroboration_count ?s2 _ _)%Z =>
      assert (E1 : corroboration_count s1 id
                     (Observation.set_validation 0 who (py_now_isoformat clk 0) o)
                   = corroboration_count s id o);
      [| assert (E2 : corroboration_count s2 id
                        (Observation.set_validation 1 who'
                           (py_now_isoformat clk' 0) o)
                      = corroboration_count s id o)]
  end.
  - unfold corroboration_count. simpl.
    rewrite filter_alter_excluded; [reflexivity |].
    intros x. apply corroborates_self.
  - unfold corroboration_count. simpl.
    rewrite filter_alter_excluded; [reflexivity |].
    intros x. apply corroborates_self.
  - rewrite E1, E2. reflexivity.
Qed.

Lemma validation_does_not_lower_reliability_witness :
  (calculate_observation_reliability
     (validate_observation Scenario.clk Scenario.db_reported 1 "elder" false
        0 "").2 1).1
  <= (calculate_observation_reliability
        (validate_observation Scenario.clk Scenario.db_reported 1 "elder" true
           0 "").2 1).1.
Proof.
  eapply (validation_does_not_lower_reliability Scenario.clk Scenario.clk
            Scenario.db_reported 1).
  - vm_compute. reflexivity.
  - vm_compute. reflexivity.
  - split; vm_compute; discriminate.
  - split; vm_compute; discriminate.
Defined.

(** X9.  The [reliability_adjustment], the notes, the validator id and the
    time of a validation are only recorded: the reliability computed after
    [validate_observation] depends on [is_valid] alone. *)
Theorem reliability_ignores_validation_details
    (clk clk' : clock) (s : Db.t) (id : Z) (who who' : string)
    (is_valid : bool) (adj adj' : Q) (notes notes' : string) :
  (calculate_observation_reliability
     (validate_observation clk s id who is_valid adj notes).2 id).1
  = (calculate_observation_reliability
       (validate_observation clk' s id who' is_valid adj' notes').2 id).1.
Proof.
  set (s1 := (validate_observation clk s id who is_valid adj notes).2).
  set (s2 := (validate_observation clk' s id who' is_valid adj' notes').2).
  destruct (Db.observations s !! id) as [o |] eqn:Ho.
  - assert (H1 : Db.observations s1 !! id
                 = Some (Observation.set_validation (if is_valid then 1 else 0)
                           who (py_now_isoformat clk 0) o)).
    { subst s1. simpl. rewrite lookup_alter_eq, Ho. reflexivity. }
    assert (H2 : Db.observations s2 !! id
                 = Some (Observation.set_validation (if is_valid then 1 else 0)
                           who' (py_now_isoformat clk' 0) o)).
    { subst s2. simpl. rewrite lookup_alter_eq, Ho. reflexivity. }
    destruct (Db.observers s !! Observation.observer_id o) as [c |] eqn:Hc.
    + rewrite (calculate_observation_reliability_found s1 id _ c H1 Hc).
      rewrite (calculate_observation_reliability_found s2 id _ c H2 Hc).
      cbv zeta. cbn [fst]. f_equal.
      cbn [Observation.confidence_level Observation.severity
           Observation.validated Observation.set_validation].
      f_equal.
      transitivity (corroboration_count s id o).
      * subst s1. unfold corroboration_count. simpl.
        rewrite filter_alter_excluded; [reflexivity |].
        intros x. apply corroborates_self.
      * subst s2. unfold corroboration_count. simpl.
        rewrite filter_alter_excluded; [reflexivity |].
        intros x. apply corroborates_self.
    + rewrite !calculate_observation_reliability_no_row; [reflexivity | |].
      * unfold observation_join_observer. rewrite H2. simpl.
        now rewrite Hc.
      * unfold observation_join_observer. rewrite H1. simpl.
        now rewrite Hc.
  - assert (H1 : Db.observations s1 !! id = None).
    { subst s1. simpl. rewrite lookup_alter_eq, Ho. reflexivity. }
    assert (H2 : Db.observations s2 !! id = None).
    { subst s2. simpl. rewrite lookup_alter_eq, Ho. reflexivity. }
    rewrite !calculate_observation_reliability_no_row; [reflexivity | |].
    + unfold observation_join_observer. now rewrite H2.
    + unfold observation_join_observer. now rewrite H1.
Qed.

(** X10.  [calculate_observation_reliability] writes at most one column:
    observers, validation history and every other observation are as
    before, and the row it was asked about is either untouched or differs
    in its reliability score only. *)
Theorem reliability_writes_one_column (s : Db.t) (id : Z) :
  let s' := (calculate_observation_reliability s id).2 in
  Db.observers s' = Db.observers s
  ∧ Db.validation_history s' = Db.validation_history s
  ∧ (∀ j, j ≠ id → Db.observations s' !! j = Db.observations s !! j)
  ∧ (Db.observations s' !! id = Db.observations s !! id
     ∨ ∃ r, Db.observations s' !! id
            = Observation.set_reliability_score r <$> Db.observations s !! id)
  ∧ dom (Db.observations s') = dom (Db.observations s).
Proof.
  cbv zeta.
  destruct (observation_join_observer s id) as [row |] eqn:J.
  - unfold observation_join_observer in J.
    destruct (Db.observations s !! id) as [o |] eqn:Ho; [| discriminate].
    simpl in J.
    destruct (Db.observers s !! Observation.observer_id o) as [c |] eqn:Hc;
      [| discriminate].
    rewrite (calculate_observation_reliability_found s id o c Ho Hc).
    cbv zeta. cbn [snd]. simpl.
    repeat split.
    + intros j Hj. now apply lookup_alter_ne.
    + right. eexists. rewrite lookup_alter_eq, Ho. reflexivity.
    + apply dom_alter_L.
  - rewrite (calculate_observation_reliability_no_row s id J). simpl.
    repeat split; auto.
Qed.

(** X11.  Validating another observation never lowers this one's score:
    for an observation [id] of a registered observer (accuracy and
    confidence in [0, 1]) and any other id, the reliability of [id]
    computed after [validate_observation(other, ..., is_valid=True)] is at
    least the one computed before. *)
Theorem corroboration_does_not_lower_reliability
    (clk : clock) (s : Db.t) (id other : Z) (who : string) (adj : Q)
    (notes : string) (o : Observation.t) (c : Observer.t) :
  id ≠ other →
  Db.observations s !! id = Some o →
  Db.observers s !! Observation.observer_id o = Some c →
  0 <= Observer.accuracy_score c <= 1 →
  0 <= Observation.confidence_level o <= 1 →
  (calculate_observation_reliability s id).1
  <= (calculate_observation_reliability
        (validate_observation clk s other who true adj notes).2 id).1.
Proof.
  intros Hne Ho Hc Hacc Hconf.
  set (s' := (validate_observation clk s other who true adj notes).2).
  assert (Ho' : Db.observations s' !! id = Some o).
  { subst s'. simpl. rewrite lookup_alter_ne by congruence. exact Ho. }
  rewrite (calculate_observation_reliability_found s id o c Ho Hc).
  rewrite (calculate_observation_reliability_found s' id o c Ho' Hc).
  cbv zeta. cbn [fst].
  apply py_round_mono, reliability_from_mono; try assumption.
  - destruct (Z.eq_dec (Observation.validated o) 0%Z); [now left | now right].
  - subst s'. apply corroboration_count_validate_other.
Qed.

Lemma corroboration_does_not_lower_reliability_witness :
  (calculate_observation_reliability Scenario.db_two_reports 1).1 == 0.193
  ∧ (calculate_observation_reliability
       (validate_observation Scenario.clk Scenario.db_two_reports 2 "elder"
          true 0 "").2 1).1 == 0.243
  ∧ (calculate_observation_reliability Scenario.db_two_reports 1).1
    <= (calculate_observation_reliability
          (validate_observation Scenario.clk Scenario.db_two_reports 2 "elder"
             true 0 "").2 1).1.
Proof.
  split; [vm_compute; reflexivity |]. split; [vm_compute; reflexivity |].
  eapply (corroboration_does_not_lower_reliability Scenario.clk
            Scenario.db_two_reports 1 2).
  - discriminate.
  - vm_compute. reflexivity.
  - vm_compute. reflexivity.
  - split; vm_compute; discriminate.
  - split; vm_compute; discriminate.
Defined.

(** ** Facts about SQLite's modifiers *)

Module SqliteFacts.
Import Sqlite.

Lemma spaceless_nil : spaceless "".
Proof. intros t. reflexivity. Qed.

Lemma spaceless_cons (c : ascii) (s : string) :
  c ≠ " "%char → spaceless s → spaceless (String c s).
Proof.
  intros Hc Hs t. specialize (Hs t).
  change (String c s +:+ t) with (String c (s +:+ t)).
  destruct c as [[] [] [] [] [] [] [] []];
    try contradiction; cbn [split_at_space];
    destruct (split_at_space (s +:+ t)) as [a b]; exact Hs.
Qed.

Lemma pretty_N_char_not_space (x : N) : pretty_N_char x ≠ " "%char.
Proof. unfold pretty_N_char. repeat case_match; discriminate. Qed.

Lemma spaceless_pretty_N_go (x : N) :
  ∀ s, spaceless s → spaceless (pretty_N_go x s).
Proof.
  induction (N.lt_wf_0 x) as [x _ IH]; intros s Hs.
  assert (x = 0 ∨ 0 < x)%N as [-> | Hx] by lia.
  - now rewrite pretty_N_go_0.
  - rewrite pretty_N_go_step by exact Hx.
    apply IH; [now apply N.div_lt |].
    apply spaceless_cons; [apply pretty_N_char_not_space | exact Hs].
Qed.

Lemma spaceless_pretty_N (x : N) : spaceless (pretty x).
Proof.
  unfold pretty, pretty_N. destruct (decide (x = 0%N)).
  - apply spaceless_cons; [discriminate | apply spaceless_nil].
  - apply spaceless_pretty_N_go, spaceless_nil.
Qed.

(** The text Python prints for a whole number has no space in it. *)
Lemma spaceless_pretty_Z (z : Z) : spaceless (pretty z).
Proof.
  unfold pretty, pretty_Z. destruct z as [| p | p].
  - apply spaceless_cons; [discriminate | apply spaceless_nil].
  - apply spaceless_pretty_N.
  - apply spaceless_cons; [discriminate | apply spaceless_pretty_N].
Qed.

(** A modifier with the unit glued to the number has no unit after the
    first space. *)
Lemma glued_modifier_has_no_unit (days : Z) :
  (split_at_space ("-" +:+ pretty days +:+ "days")).2 = "".
Proof.
  change ("-" +:+ pretty days +:+ "days")
    with (String "-" (pretty days) +:+ "days").
  apply (spaceless_cons "-" (pretty days)); [discriminate |].
  apply spaceless_pretty_Z.
Qed.

End SqliteFacts.
Import SqliteFacts.

(** ** Facts about the two read queries *)

Module QueryFacts.

Lemma elem_of_insert_by_timestamp (x r : Z * Observation.t)
    (l : list (Z * Observation.t)) :
  x ∈ insert_by_timestamp r l ↔ x = r ∨ x ∈ l.
Proof.
  induction l as [| y l IH]; simpl.
  - rewrite list_elem_of_singleton, elem_of_nil. tauto.
  - destruct (String.leb _ _); rewrite !elem_of_cons, ?IH; tauto.
Qed.

Lemma elem_of_order_by_timestamp_desc (x : Z * Observation.t)
    (l : list (Z * Observation.t)) :
  x ∈ order_by_timestamp_desc l ↔ x ∈ l.
Proof.
  unfold order_by_timestamp_desc.
  induction l as [| y l IH]; simpl; [reflexivity |].
  rewrite elem_of_insert_by_timestamp, elem_of_cons, IH. reflexivity.
Qed.

Lemma elem_of_insert_by_reliability_iff (x r : score_row) (l : list score_row) :
  x ∈ insert_by_reliability r l ↔ x = r ∨ x ∈ l.
Proof.
  induction l as [| y l IH]; simpl.
  - rewrite list_elem_of_singleton, elem_of_nil. tauto.
  - destruct (Qle_bool _ _); rewrite !elem_of_cons, ?IH; tauto.
Qed.

Lemma elem_of_order_by_reliability_desc_iff (x : score_row) (l : list score_row) :
  x ∈ order_by_reliability_desc l ↔ x ∈ l.
Proof.
  unfold order_by_reliability_desc.
  induction l as [| y l IH]; simpl; [reflexivity |].
  rewrite elem_of_insert_by_reliability_iff, elem_of_cons, IH. reflexivity.
Qed.

Lemma length_order_by_reliability_desc (l : list score_row) :
  length (order_by_reliability_desc l) = length l.
Proof.
  unfold order_by_reliability_desc.
  induction l as [| y l IH]; simpl; [reflexivity |].
  now rewrite length_insert_by_reliability, IH.
Qed.

Lemma elem_of_get_recent_observations (clk : clock) (s : Db.t) (days : Z)
    (obs_type : option string) (min_reliability : Q) (k : Z)
    (o : Observation.t) :
  (k, o) ∈ get_recent_observations clk s days obs_type min_reliability
  ↔ Db.observations s !! k = Some o
    ∧ recent_filter clk days obs_type min_reliability o = true.
Proof.
  unfold get_recent_observations.
  rewrite elem_of_order_by_timestamp_desc, list_elem_of_In, filter_In,
    <- list_elem_of_In, elem_of_map_to_list. reflexivity.
Qed.

End QueryFacts.
Import QueryFacts.

(** ** community_reports.py: the read path *)

(** X12.  [get_recent_observations] asks SQLite for the cut-off with the
    modifier ['-<days>' || 'days'], the unit glued to the number.  SQLite
    reads a number up to the first space and the unit after it, so for
    every whole number of days and at every instant the answer is NULL;
    and whenever the cut-off is NULL, [timestamp > cut-off] holds of no
    row and the function returns the empty frame: whatever the store
    holds, and whatever the type filter and the minimum reliability. *)
Theorem get_recent_observations_null_cutoff
    (clk : clock) (s : Db.t) (days : Z) (obs_type : option string)
    (min_reliability : Q) :
  (∀ now, Sqlite.datetime now ("-" +:+ pretty days +:+ "days") = None)
  ∧ (sqlite_datetime_now clk ("-" +:+ pretty days +:+ "days") = None →
     get_recent_observations clk s days obs_type min_reliability = []).
Proof.
  split.
  - intros now. unfold Sqlite.datetime.
    pose proof (glued_modifier_has_no_unit days) as E.
    destruct (Sqlite.split_at_space ("-" +:+ pretty days +:+ "days"))
      as [number unit].
    cbn [snd] in E. subst unit.
    destruct (Sqlite.signed_number number); reflexivity.
  - intros Hnull. unfold get_recent_observations.
    assert (E : List.filter
                  (λ kv : Z * Observation.t,
                     recent_filter clk days obs_type min_reliability kv.2)
                  (map_to_list (Db.observations s)) = []).
    { induction (map_to_list (Db.observations s)) as [| kv l IH];
        [reflexivity |].
      cbn [List.filter]. unfold recent_filter at 1. rewrite Hnull.
      cbn [text_gt andb]. exact IH. }
    rewrite E. reflexivity.
Qed.

(** X13.  A report from an observer id that is not registered stays out of
    [get_recent_observations] for every positive [min_reliability], even
    once it is validated and scored: its score is computed as 0.0 and the
    stored score stays 0.0. *)
Theorem unregistered_report_never_listed
    (clk clk1 clk2 : clock) (s : Db.t)
    (observer_id obs_type description : string) (location : Q * Q)
    (severity : string) (confidence : Q) (who : string) (adj : Q)
    (notes : string) (days : Z) (ty : option string) (min_reliability : Q) :
  Db.observers s !! observer_id = None →
  0 < min_reliability →
  let sub := submit_observation clk s observer_id obs_type description
               location severity confidence in
  let s2 := (validate_observation clk1 sub.2 sub.1 who true adj notes).2 in
  let scored := calculate_observation_reliability s2 sub.1 in
  scored.1 = 0.0
  ∧ ∀ o, (sub.1, o)
         ∉ get_recent_observations clk2 scored.2 days ty min_reliability.
Proof.
  intros Hc Hmin. cbv zeta.
  set (sub := submit_observation clk s observer_id obs_type description
                location severity confidence).
  set (s2 := (validate_observation clk1 sub.2 sub.1 who true adj notes).2).
  assert (Hrow : ∃ o, Db.observations s2 !! sub.1 = Some o
                      ∧ Observation.observer_id o = observer_id
                      ∧ Observation.reliability_score o = 0.0).
  { subst s2 sub. unfold submit_observation, Db.insert_observation.
    cbn [fst snd]. simpl.
    rewrite lookup_alter_eq, lookup_insert_eq. simpl.
    eexists. split; [reflexivity |]. split; reflexivity. }
  destruct Hrow as (o & Ho & Hid & Hrel).
  assert (Hobs : Db.observers s2 !! observer_id = None).
  { subst s2 sub. unfold submit_observation, Db.insert_observation.
    cbn [fst snd]. simpl. rewrite lookup_alter_eq, Hc. reflexivity. }
  clearbody s2.
  assert (E : calculate_observation_reliability s2 sub.1 = (0.0, s2)).
  { apply calculate_observation_reliability_no_row.
    unfold observation_join_observer. rewrite Ho. simpl.
    rewrite Hid, Hobs. reflexivity. }
  rewrite E. split; [reflexivity |].
  intros o' Hin. cbn [snd] in Hin.
  apply elem_of_get_recent_observations in Hin as [Ho' Hf].
  rewrite Ho in Ho'. injection Ho' as <-.
  unfold recent_filter in Hf. rewrite !andb_true_iff in Hf.
  destruct Hf as [[[_ _] Hr] _]. apply Qle_bool_iff in Hr.
  rewrite Hrel in Hr. lra.
Qed.

(** ** Facts about the aggregator *)

Module AggregatorFacts.

Lemma elem_of_query_window_iff (clk : clock) (s : Db.t) (location : Q * Q)
    (hours_back : Z) (row : score_row) :
  row ∈ query_window clk s location hours_back
  ↔ ∃ k o, Db.observations s !! k = Some o
           ∧ in_window clk location hours_back o = true
           ∧ row = row_of o.
Proof.
  split; [apply elem_of_query_window |].
  intros (k & o & Ho & Hw & ->). unfold query_window.
  apply elem_of_order_by_reliability_desc_iff, list_elem_of_fmap.
  exists o. split; [reflexivity |].
  apply list_elem_of_In, filter_In. split; [| exact Hw].
  apply list_elem_of_In, list_elem_of_fmap. exists (k, o).
  split; [reflexivity |]. now apply elem_of_map_to_list.
Qed.

(** The loop only ever writes keys the accumulator already has. *)
Lemma aggregate_unknown_type (rows : list score_row) :
  ∀ scores : gmap string Q,
    (∀ ty, is_Some (scores !! ty) → ty ∈ OBSERVATION_TYPES) →
    (∃ row, row ∈ rows ∧ row.1.1.1 ∉ OBSERVATION_TYPES) →
    aggregate scores rows = None.
Proof.
  induction rows as [| r rows IH]; intros scores Hkeys (row & Hin & Hbad).
  - inversion Hin.
  - simpl. unfold add_contribution.
    destruct (scores !! r.1.1.1) as [old |] eqn:E; simpl; [| reflexivity].
    apply IH.
    + intros ty. rewrite lookup_insert.
      destruct (decide (r.1.1.1 = ty)) as [<- | _]; [| apply Hkeys].
      intros _. apply Hkeys. eauto.
    + apply elem_of_cons in Hin as [-> | Hin]; [| eauto].
      exfalso. apply Hbad, Hkeys. eauto.
Qed.

Lemma initial_scores_only_types (ty : string) :
  is_Some
    ((list_to_map
        [("anomalous_waves", 0.0); ("wind_pattern_shift", 0.0);
         ("tidal_anomaly", 0.0); ("wildlife_behavior", 0.0);
         ("coastal_erosion", 0.0); ("mangrove_stress", 0.0)] : gmap string Q)
     !! ty) →
  ty ∈ OBSERVATION_TYPES.
Proof.
  intros [v Hv]. apply elem_of_list_to_map_2 in Hv.
  unfold OBSERVATION_TYPES.
  repeat (apply elem_of_cons in Hv as [[= -> _] | Hv];
          [repeat constructor |]).
  inversion Hv.
Qed.

Lemma py_round_exact (x : Q) (n : nat) (z : Z) :
  x * inject_Z (Zpos (pow10 n)) == inject_Z z → py_round x n == x.
Proof.
  intros E. unfold py_round.
  rewrite (round_half_even_proper _ _ E), round_half_even_inject.
  assert (Hp : ~ inject_Z (Zpos (pow10 n)) == 0).
  { unfold Qeq. simpl. lia. }
  rewrite (Qmake_Qdiv z (pow10 n)).
  rewrite <- E. field. exact Hp.
Qed.

Lemma confidence_rounding (n : nat) :
  py_round (Qmin (inject_Z (Z.of_nat n) / 5) 1.0) 3
  == Qmin (inject_Z (Z.of_nat n) / 5) 1.
Proof.
  destruct (le_lt_dec 5 n) as [Hge | Hlt].
  - assert (H5 : 1 <= inject_Z (Z.of_nat n) / 5).
    { apply Qle_shift_div_l; [lra |].
      change (1 * 5) with (inject_Z 5). rewrite <- Zle_Qle. lia. }
    assert (E : Qmin (inject_Z (Z.of_nat n) / 5) 1.0 == inject_Z 1).
    { rewrite Q.min_r; [reflexivity | lra]. }
    rewrite (py_round_proper _ _ 3 E), py_round_inject.
    rewrite Q.min_r; [reflexivity | exact H5].
  - assert (Hc : (n = 0 ∨ n = 1 ∨ n = 2 ∨ n = 3 ∨ n = 4)%nat) by lia.
    destruct Hc as [-> | [-> | [-> | [-> | ->]]]]; vm_compute; reflexivity.
Qed.

Lemma ascii_compare_refl (c : ascii) : Ascii.compare c c = Eq.
Proof. unfold Ascii.compare. apply N.compare_refl. Qed.

(** As text, a timestamp with the separator ["T"] is after every
    timestamp of the same day with a space for separator. *)
Lemma text_gt_same_day (day t_obs t_cut : string) :
  text_gt (day +:+ "T" +:+ t_obs) (Some (day +:+ " " +:+ t_cut)) = true.
Proof.
  unfold text_gt, String.ltb.
  induction day as [| c day IH]; [reflexivity |].
  change (String c day +:+ " " +:+ t_cut)
    with (String c (day +:+ " " +:+ t_cut)).
  change (String c day +:+ "T" +:+ t_obs)
    with (String c (day +:+ "T" +:+ t_obs)).
  cbn [String.compare]. rewrite ascii_compare_refl. exact IH.
Qed.

(** The location itself is within the search square around it. *)
Lemma between_radius (x c : Q) : x == c → between x (c - 0.45) (c + 0.45) = true.
Proof.
  intros E. unfold between.
  apply andb_true_iff. split; apply Qle_bool_iff; lra.
Qed.

End AggregatorFacts.
Import AggregatorFacts.

(** X14.  The aggregator compares the stored timestamp, which Python
    wrote as date, ["T"], time, with SQLite's cut-off, which is date, space,
    time, as text.  So a validated observation made at the queried location
    on the calendar day of the cut-off is always read, whatever its time of
    day, also when it was made before the cut-off: the result is not the
    all-zero dictionary, and when the rows read have known types the count
    is at least 1. *)
Theorem aggregator_reads_whole_cutoff_day
    (clk : clock) (s : Db.t) (location : Q * Q) (hours_back : Z)
    (k : Z) (o : Observation.t) (day t_obs t_cut : string) :
  Db.observations s !! k = Some o →
  Observation.validated o = 1%Z →
  Observation.location_lat o == location.1 →
  Observation.location_lon o == location.2 →
  Observation.timestamp o = day +:+ "T" +:+ t_obs →
  sqlite_datetime_now clk ("-" +:+ pretty hours_back +:+ " hours")
  = Some (day +:+ " " +:+ t_cut) →
  let d := calculate_indigenous_score_from_observations clk s location
             hours_back in
  row_of o ∈ query_window clk s location hours_back
  ∧ d ≠ empty_score
  ∧ ((∀ row, row ∈ query_window clk s location hours_back →
             row.1.1.1 ∈ OBSERVATION_TYPES) →
     (1 ≤ num_observations d)%Z).
Proof.
  intros Ho Hv Hlat Hlon Hts Hcut. cbv zeta.
  assert (Hin : row_of o ∈ query_window clk s location hours_back).
  { apply elem_of_query_window_iff. exists k, o.
    split; [exact Ho |]. split; [| reflexivity].
    unfold in_window. rewrite Hcut, Hts, text_gt_same_day.
    rewrite (between_radius _ _ Hlat), (between_radius _ _ Hlon), Hv.
    reflexivity. }
  split; [exact Hin |].
  unfold calculate_indigenous_score_from_observations.
  destruct (query_window clk s location hours_back) as [| row df] eqn:Eq;
    [inversion Hin |].
  split.
  - destruct (score_rows (row :: df)) as [d |] eqn:E; [| discriminate].
    apply score_rows_values in E. subst d. discriminate.
  - intros Htypes.
    destruct (score_rows_known_types (row :: df) Htypes) as [d E].
    rewrite E. apply score_rows_values in E. subst d.
    cbn [num_observations length]. lia.
Qed.

(** X15.  One validated observation in the window whose type is not a key
    of the score table makes the loop raise [KeyError]: the handler's
    dictionary is returned, with total 0.0, confidence 0.0, count 0 and no
    sub-scores, whatever the other observations are. *)
Theorem aggregator_unknown_type_gives_error_result
    (clk : clock) (s : Db.t) (location : Q * Q) (hours_back : Z)
    (k : Z) (o : Observation.t) :
  Db.observations s !! k = Some o →
  in_window clk location hours_back o = true →
  Observation.observation_type o ∉ OBSERVATION_TYPES →
  calculate_indigenous_score_from_observations clk s location hours_back
  = error_score.
Proof.
  intros Ho Hw Hbad.
  assert (Hin : row_of o ∈ query_window clk s location hours_back).
  { apply elem_of_query_window_iff. eauto. }
  unfold calculate_indigenous_score_from_observations.
  destruct (query_window clk s location hours_back) as [| row df];
    [inversion Hin |].
  unfold score_rows.
  rewrite (aggregate_unknown_type (row :: df));
    [reflexivity | apply initial_scores_only_types |].
  exists (row_of o). split; [exact Hin | exact Hbad].
Qed.

(** X16.  The confidence the aggregator returns is [min(n / 5, 1.0)] for
    the returned [num_observations] [n]: n/5 up to four observations, 1.0
    from five on (and 0 with the count 0 of the empty and of the error
    result). *)
Theorem aggregator_confidence_from_count
    (clk : clock) (s : Db.t) (location : Q * Q) (hours_back : Z) :
  let d := calculate_indigenous_score_from_observations clk s location
             hours_back in
  (0 ≤ num_observations d)%Z
  ∧ confidence d == Qmin (inject_Z (num_observations d) / 5) 1
  ∧ ((5 ≤ num_observations d)%Z → confidence d == 1)
  ∧ ((num_observations d < 5)%Z →
     confidence d == inject_Z (num_observations d) / 5).
Proof.
  cbv zeta.
  set (d := calculate_indigenous_score_from_observations clk s location
              hours_back).
  assert (H : (0 ≤ num_observations d)%Z
              ∧ confidence d == Qmin (inject_Z (num_observations d) / 5) 1).
  { subst d. unfold calculate_indigenous_score_from_observations.
    destruct (query_window clk s location hours_back) as [| row df];
      [split; [simpl; lia | vm_compute; reflexivity] |].
    destruct (score_rows (row :: df)) as [d |] eqn:E;
      [| split; [simpl; lia | vm_compute; reflexivity]].
    apply score_rows_Some in E
      as (wave & wind & tidal & eco & _ & _ & _ & _ & _ & _ & Hc & Hn).
    rewrite Hc, Hn. split; [lia | apply confidence_rounding]. }
  destruct H as [H0 Hc]. split; [exact H0 |]. split; [exact Hc |].
  split; intros Hn; rewrite Hc.
  - apply Q.min_r. apply Qle_shift_div_l; [lra |].
    change (1 * 5) with (inject_Z 5). rewrite <- Zle_Qle. exact Hn.
  - apply Q.min_l. apply Qle_shift_div_r; [lra |].
    change (1 * 5) with (inject_Z 5). rewrite <- Zle_Qle. lia.
Qed.

Lemma aggregator_unknown_type_gives_error_result_witness :
  total_indigenous_score
    (calculate_indigenous_score_from_observations Scenario.clk
       Scenario.db_scored (19.0, 72.8) 24) == 0.057
  ∧ calculate_indigenous_score_from_observations Scenario.clk
      Scenario.db_unknown_type (19.0, 72.8) 24 = error_score.
Proof.
  split; [vm_compute; reflexivity |].
  eapply (aggregator_unknown_type_gives_error_result Scenario.clk
            Scenario.db_unknown_type (19.0, 72.8) 24 2).
  - vm_compute. reflexivity.
  - vm_compute. reflexivity.
  - apply (bool_decide_unpack _). vm_compute. exact I.
Defined.

(** ** More facts about the aggregator *)

Module AggregatorBoundsFacts.

Lemma aggregate_nonneg (rows : list score_row) :
  ∀ scores scores' : gmap string Q,
    (∀ ty v, scores !! ty = Some v → 0 <= v) →
    (∀ row, row ∈ rows → 0 <= row.1.2) →
    aggregate scores rows = Some scores' →
    ∀ ty v, scores' !! ty = Some v → 0 <= v.
Proof.
  induction rows as [| r rows IH]; intros scores scores' Hs Hrows; simpl.
  - intros [= <-]. exact Hs.
  - unfold add_contribution.
    destruct (scores !! r.1.1.1) as [old |] eqn:E; simpl; [| discriminate].
    apply IH.
    + intros ty v. rewrite lookup_insert.
      destruct (decide (r.1.1.1 = ty)) as [_ | _]; [| apply Hs].
      intros [= <-].
      pose proof (Hs _ _ E) as Hold.
      pose proof (severity_weight_bounds r.1.1.2) as [Hw _].
      assert (0 <= r.1.2) by (apply Hrows; left).
      assert (0 <= dict_get SEVERITY_LEVELS r.1.1.2 0.5 * r.1.2)
        by (apply Qmult_le_0_compat; lra).
      lra.
    + intros row Hrow. apply Hrows. now right.
Qed.

Lemma initial_scores_nonneg (ty : string) (v : Q) :
  (list_to_map
     [("anomalous_waves", 0.0); ("wind_pattern_shift", 0.0);
      ("tidal_anomaly", 0.0); ("wildlife_behavior", 0.0);
      ("coastal_erosion", 0.0); ("mangrove_stress", 0.0)] : gmap string Q)
  !! ty = Some v →
  0 <= v.
Proof.
  intros Hv. apply elem_of_list_to_map_2 in Hv.
  repeat (apply elem_of_cons in Hv as [[= _ ->] | Hv]; [lra |]).
  inversion Hv.
Qed.

Lemma Qmin_div_nonneg (x c : Q) (k : Z) :
  0 <= x → 0 <= c → (0 < k)%Z → 0 <= Qmin (x / inject_Z k) c.
Proof.
  intros Hx Hc Hk. apply Q.min_glb; [| exact Hc].
  apply Qle_shift_div_l.
  - change 0 with (inject_Z 0). rewrite <- Zlt_Qlt. exact Hk.
  - lra.
Qed.

Lemma score_rows_nonneg (df : list score_row) (d : indigenous_score) :
  (∀ row, row ∈ df → 0 <= row.1.2) →
  score_rows df = Some d →
  ∃ wave wind tidal eco : Q,
    (0 <= wave <= 0.4 ∧ 0 <= wind <= 0.3 ∧ 0 <= tidal <= 0.25
     ∧ 0 <= eco <= 0.2)
    ∧ scored_from df d wave wind tidal eco.
Proof.
  intros Hrows. unfold score_rows.
  destruct (aggregate _ df) as [scores |] eqn:Hagg; simpl; [| discriminate].
  pose proof (aggregate_nonneg df _ _ initial_scores_nonneg Hrows Hagg) as Hnn.
  repeat match goal with
         | |- context [scores !! ?key] =>
             let v := fresh "v" in
             let Hv := fresh "Hv" in
             destruct (scores !! key) as [v |] eqn:Hv; simpl; [| discriminate];
             apply Hnn in Hv
         end.
  intros [= <-].
  do 4 eexists. split; [| repeat split].
  repeat split; try apply Q.le_min_r.
  - apply (Qmin_div_nonneg _ _ 3); [assumption | lra | lia].
  - apply (Qmin_div_nonneg _ _ 3); [assumption | lra | lia].
  - apply (Qmin_div_nonneg _ _ 3); [assumption | lra | lia].
  - apply (Qmin_div_nonneg _ _ 9); [lra | lra | lia].
Qed.

Lemma py_round_between (x lo hi : Q) (n : nat) :
  py_round lo n == lo → py_round hi n == hi → lo <= x <= hi →
  lo <= py_round x n <= hi.
Proof.
  intros Elo Ehi [H1 H2]. split.
  - rewrite <- Elo. now apply py_round_mono.
  - rewrite <- Ehi. now apply py_round_mono.
Qed.

End AggregatorBoundsFacts.
Import AggregatorBoundsFacts.

(** X17.  When no stored reliability score is negative, every number in
    the aggregator's result is within its range: the total is in [0, 1] and
    the wave, wind, tidal and ecosystem sub-scores, where present, are in
    [0, 0.4], [0, 0.3], [0, 0.25] and [0, 0.2]. *)
Theorem aggregator_scores_in_range
    (clk : clock) (s : Db.t) (location : Q * Q) (hours_back : Z) :
  (∀ k o, Db.observations s !! k = Some o →
          0 <= Observation.reliability_score o) →
  let d := calculate_indigenous_score_from_observations clk s location
             hours_back in
  0 <= total_indigenous_score d <= 1
  ∧ (∀ q, wave_anomaly_score d = Some q → 0 <= q <= 0.4)
  ∧ (∀ q, wind_anomaly_score d = Some q → 0 <= q <= 0.3)
  ∧ (∀ q, tidal_anomaly_score d = Some q → 0 <= q <= 0.25)
  ∧ (∀ q, ecosystem_stress_score d = Some q → 0 <= q <= 0.2).
Proof.
  intros Hrel. cbv zeta.
  unfold calculate_indigenous_score_from_observations.
  destruct (query_window clk s location hours_back) as [| row df] eqn:Eq.
  { simpl. split; [split; vm_compute; discriminate |].
    split; [| split; [| split]];
      intros q [= <-]; split; vm_compute; discriminate. }
  destruct (score_rows (row :: df)) as [d |] eqn:E.
  2: { simpl. split; [split; vm_compute; discriminate |].
       split; [| split; [| split]]; intros q [=]. }
  apply score_rows_nonneg in E
    as (wave & wind & tidal & eco & (Hwave & Hwind & Htidal & Heco)
        & H1 & H2 & H3 & H4 & H5 & _).
  - rewrite H1, H2, H3, H4, H5.
    split; [| split; [| split; [| split]]]; try (intros q [= <-]).
    + apply (py_round_between _ 0 1); try (vm_compute; reflexivity).
      split; [apply Q.min_glb; lra |].
      apply Qle_trans with 1.0; [apply Q.le_min_r | lra].
    + apply (py_round_between _ 0 0.4); tauto || (vm_compute; reflexivity).
    + apply (py_round_between _ 0 0.3); tauto || (vm_compute; reflexivity).
    + apply (py_round_between _ 0 0.25); tauto || (vm_compute; reflexivity).
    + apply (py_round_between _ 0 0.2); tauto || (vm_compute; reflexivity).
  - intros r Hr. rewrite <- Eq in Hr.
    apply elem_of_query_window in Hr as (k & o & Ho & _ & ->).
    apply (Hrel _ _ Ho).
Qed.

(** ** Facts about the validators *)

Module ValidationFacts.
Import Py Validation.

Lemma float_leb_Fin (x y : Q) : Float.leb (Fin x) (Fin y) = true ↔ x <= y.
Proof. apply Qle_bool_iff. Qed.

Lemma float_ltb_Fin (x y : Q) : Float.ltb (Fin x) (Fin y) = true ↔ x < y.
Proof.
  unfold Float.ltb. simpl. rewrite negb_true_iff.
  split.
  - intros H. apply Qnot_le_lt. intros Hle.
    apply Qle_bool_iff in Hle. congruence.
  - intros H. destruct (Qle_bool y x) eqn:E; [| reflexivity].
    apply Qle_bool_iff in E. lra.
Qed.

Lemma float_ltb_Fin_false (x y : Q) : Float.ltb (Fin x) (Fin y) = false ↔ y <= x.
Proof.
  unfold Float.ltb. simpl. rewrite negb_false_iff. apply Qle_bool_iff.
Qed.

Lemma bounds_check_accepts (x : float) (lo hi : Q) :
  Float.leb (Fin lo) x && Float.leb x (Fin hi) = true
  ↔ ∃ q, x = Fin q ∧ lo <= q <= hi.
Proof.
  destruct x as [q |].
  - rewrite andb_true_iff, !float_leb_Fin.
    split; [intros [? ?]; eauto | intros (? & [= <-] & ? & ?); auto].
  - simpl. split; [discriminate | intros (? & [=] & _)].
Qed.

Lemma number_is_number (v : py_value) (x : float) :
  number v = Some x → is_number v = true.
Proof. destruct v; simpl; congruence. Qed.


Lemma py_leb_bounds (v : py_value) (lo hi : Q) :
  Py.leb (PyFloat (Fin lo)) v && Py.leb v (PyFloat (Fin hi)) = true
  ↔ number_between v lo hi.
Proof.
  unfold Py.leb, number_between. cbn [number].
  destruct (number v) as [x |].
  - rewrite bounds_check_accepts.
    split; [intros (q & -> & Hq); eauto | intros (q & [= ->] & Hq); eauto].
  - simpl. split; [discriminate | intros (q & [=] & _)].
Qed.

Lemma validate_lat_returns (lat : py_value) :
  (∃ b, validate_lat lat = Returns b)
  ↔ number_between lat Config.LAT_MIN Config.LAT_MAX.
Proof.
  unfold validate_lat.
  destruct (is_number lat) eqn:En; cbn [negb].
  - destruct (Py.leb (PyFloat (Fin Config.LAT_MIN)) lat
              && Py.leb lat (PyFloat (Fin Config.LAT_MAX))) eqn:E; cbn [negb].
    + apply py_leb_bounds in E. split; eauto.
    + split; [intros [b [=]] |].
      intros H. apply py_leb_bounds in H. congruence.
  - split; [intros [b [=]] |].
    intros (x & Hx & _). apply number_is_number in Hx. congruence.
Qed.

Lemma validate_lon_returns (lon : py_value) :
  (∃ b, validate_lon lon = Returns b)
  ↔ number_between lon Config.LON_MIN Config.LON_MAX.
Proof.
  unfold validate_lon.
  destruct (is_number lon) eqn:En; cbn [negb].
  - destruct (Py.leb (PyFloat (Fin Config.LON_MIN)) lon
              && Py.leb lon (PyFloat (Fin Config.LON_MAX))) eqn:E; cbn [negb].
    + apply py_leb_bounds in E. split; eauto.
    + split; [intros [b [=]] |].
      intros H. apply py_leb_bounds in H. congruence.
  - split; [intros [b [=]] |].
    intros (x & Hx & _). apply number_is_number in Hx. congruence.
Qed.

Lemma validate_coordinates_accepts (lat lon : py_value) :
  ((validate_coordinates lat lon).1 = true
   ↔ number_between lat Config.LAT_MIN Config.LAT_MAX
     ∧ number_between lon Config.LON_MIN Config.LON_MAX)
  ∧ ((validate_coordinates lat lon).1 = true
     ↔ (validate_coordinates lat lon).2 = None).
Proof.
  rewrite <- validate_lat_returns, <- validate_lon_returns.
  unfold validate_coordinates.
  destruct (validate_lat lat) as [b1 | m1], (validate_lon lon) as [b2 | m2];
    simpl; (split; split); try discriminate; try reflexivity.
  - eauto.
  - intros [_ [? [=]]].
  - intros [[? [=]] _].
  - intros [[? [=]] _].
Qed.







End ValidationFacts.
Import ValidationFacts.

(** ** validation.py *)


(** ** Facts about the evacuation time *)

Module EvacuationFacts.
Import Py Validation.


Lemma validate_distance_accepts (distance : float) :
  ((validate_distance distance).1 = true
   ↔ ∃ d, distance = Fin d ∧ 0 <= d <= 100000)
  ∧ ((validate_distance distance).1 = true
     ↔ (validate_distance distance).2 = None).
Proof.
  unfold validate_distance.
  destruct distance as [d |].
  - destruct (Float.ltb (Fin d) (Fin 0)) eqn:E1; cbn [fst snd].
    + apply float_ltb_Fin in E1.
      split; split; try discriminate. intros (? & [= <-] & ? & ?). lra.
    + apply float_ltb_Fin_false in E1.
      destruct (Float.ltb (Fin 100000) (Fin d)) eqn:E2; cbn [fst snd].
      * apply float_ltb_Fin in E2.
        split; split; try discriminate. intros (? & [= <-] & ? & ?). lra.
      * apply float_ltb_Fin_false in E2. split; split; eauto.
  - simpl. split; split; try discriminate. intros (? & [=] & _).
Qed.

End EvacuationFacts.
Import EvacuationFacts.



(** X20.  For a distance that is negative, above 100000 metres or
    infinite, [calculate_evacuation_time] does not raise: it returns the
    times 0 and 0 together with the validator's error message, and neither
    a distance nor a description. *)
Theorem evacuation_time_of_invalid_distance (distance : float) :
  (∀ d, distance = Fin d → d < 0 ∨ 100000 < d) →
  let r := Validation.calculate_evacuation_time distance in
  Validation.time_min r = 0
  ∧ Validation.time_with_delay r = 0
  ∧ is_Some (Validation.error r)
  ∧ Validation.distance_m r = None
  ∧ Validation.description r = None.
Proof.
  intros Hbad. cbv zeta. unfold Validation.calculate_evacuation_time.
  pose proof (validate_distance_accepts distance) as [Hv Hn].
  destruct (Validation.validate_distance distance) as [[|] msg]; cbn [fst snd] in *.
  - destruct (proj1 Hv eq_refl) as (d & -> & Hd).
    destruct (Hbad d eq_refl); lra.
  - destruct msg as [m |]; [| assert (false = true) by (now apply Hn); discriminate].
    repeat split; eauto.
Qed.

Lemma evacuation_time_of_invalid_distance_witness :
  Validation.time_with_delay (Validation.calculate_evacuation_time Inf) = 0
  ∧ Validation.time_with_delay
      (Validation.calculate_evacuation_time (Fin 250000)) = 0.
Proof.
  split.
  - apply (evacuation_time_of_invalid_distance Inf). intros d [=].
  - apply (evacuation_time_of_invalid_distance (Fin 250000)).
    intros d [= <-]. right. vm_compute. reflexivity.
Defined.

(** ** Facts about shelters and routes *)

Module RoutingFacts.
Import Py Validation Routing.

Lemma validate_shelter_accepts (shelter : gmap string py_value) :
  is_Some (validate_shelter shelter)
  ∧ (validate_shelter shelter = Some (true, None) ↔ well_formed_shelter shelter).
Proof.
  unfold validate_shelter, well_formed_shelter. cbn [List.filter].
  destruct (shelter !! "id") as [vid |] eqn:Eid;
    destruct (shelter !! "name") as [vname |] eqn:Ename;
    destruct (shelter !! "lat") as [vlat |] eqn:Elat;
    destruct (shelter !! "lon") as [vlon |] eqn:Elon;
    destruct (shelter !! "capacity") as [vcap |] eqn:Ecap;
    cbn;
    try (split; [eauto |]; split; [discriminate |];
         intros ([? ?] & [? ?] & (? & ? & _) & (? & ? & _) & (? & ? & ? & _));
         discriminate).
  pose proof (proj1 (validate_coordinates_accepts vlat vlon)) as Hc.
  destruct (validate_coordinates vlat vlon) as [[|] msg]; cbn [fst negb] in *.
  - destruct (is_int vcap) as [z |] eqn:Ez.
    + destruct (Z.leb_spec z 0).
      * split; [eauto |]. split; [discriminate |].
        intros (_ & _ & _ & _ & (c & z' & [= <-] & Hz & Hpos)).
        rewrite Ez in Hz. injection Hz as <-. lia.
      * split; [eauto |]. split; [| reflexivity].
        intros _. destruct (proj1 Hc eq_refl) as [Hlat Hlon].
        repeat split; eauto.
    + split; [eauto |]. split; [discriminate |].
      intros (_ & _ & _ & _ & (c & z' & [= <-] & Hz & _)). congruence.
  - split; [eauto |]. split; [discriminate |].
    intros (_ & _ & (la & [= <-] & Hla) & (lo & [= <-] & Hlo) & _).
    assert (false = true) by (apply Hc; auto). discriminate.
Qed.


Lemma float_leb_refl (a : float) : Float.leb a a = true.
Proof. destruct a; simpl; [apply Qle_bool_iff; lra | reflexivity]. Qed.

Lemma float_leb_trans (a b c : float) :
  Float.leb a b = true → Float.leb b c = true → Float.leb a c = true.
Proof.
  destruct a, b, c; simpl; try discriminate; try reflexivity.
  rewrite !Qle_bool_iff. lra.
Qed.

Lemma float_ltb_leb (a b : float) : Float.ltb a b = true → Float.leb a b = true.
Proof.
  unfold Float.ltb. destruct a, b; simpl; try discriminate; try reflexivity.
  rewrite negb_true_iff.
  intros H. apply Qle_bool_iff.
  destruct (Qle_bool q0 q) eqn:E; [discriminate |].
  apply Qlt_le_weak, Qnot_le_lt. intros Hle.
  apply Qle_bool_iff in Hle. congruence.
Qed.

Lemma float_ltb_trans (a b c : float) :
  Float.ltb a b = true → Float.ltb b c = true → Float.ltb a c = true.
Proof.
  destruct a as [x |], b as [y |], c as [z |];
    try discriminate; try reflexivity.
  rewrite !float_ltb_Fin. lra.
Qed.

Lemma float_ltb_false_leb (a b : float) :
  Float.ltb a b = false → Float.leb b a = true.
Proof. unfold Float.ltb. now rewrite negb_false_iff. Qed.

Lemma float_ltb_Inf (a : float) : Float.ltb a Inf = true ↔ ∃ q, a = Fin q.
Proof.
  destruct a; simpl; split; eauto; try discriminate. intros [? [=]].
Qed.

Section WithHaversine.
Variable haversine : float → float → float → float → float.

Lemma nearest_loop_spec (user_lon user_lat : float)
    (shelters : list (gmap string py_value)) :
  ∀ best bd best' bd',
    nearest_loop haversine user_lon user_lat shelters best bd = (best', bd') →
    Float.leb bd' bd = true
    ∧ (∀ sh d, sh ∈ shelters →
               shelter_distance haversine user_lon user_lat sh = Some d →
               Float.leb bd' d = true)
    ∧ ((best' = best ∧ bd' = bd)
       ∨ (∃ b, b ∈ shelters ∧ best' = Some b
               ∧ shelter_distance haversine user_lon user_lat b = Some bd'
               ∧ Float.ltb bd' bd = true)).
Proof.
  induction shelters as [| sh rest IH]; intros best bd best' bd'; simpl.
  - intros [= <- <-]. split; [apply float_leb_refl |].
    split; [intros sh d Hin; inversion Hin | now left].
  - assert (Hskip :
      shelter_distance haversine user_lon user_lat sh = None →
      nearest_loop haversine user_lon user_lat rest best bd = (best', bd') →
      Float.leb bd' bd = true
      ∧ (∀ sh0 d, sh0 ∈ sh :: rest →
                  shelter_distance haversine user_lon user_lat sh0 = Some d →
                  Float.leb bd' d = true)
      ∧ ((best' = best ∧ bd' = bd)
         ∨ (∃ b, b ∈ sh :: rest ∧ best' = Some b
                 ∧ shelter_distance haversine user_lon user_lat b = Some bd'
                 ∧ Float.ltb bd' bd = true))).
    { intros Hnone Hloop. destruct (IH _ _ _ _ Hloop) as (H1 & H2 & H3).
      split; [exact H1 |]. split.
      - intros sh0 d [-> | Hin]%elem_of_cons Hd; [congruence | eauto].
      - destruct H3 as [H3 | (b & Hb & H3)]; [now left | right].
        exists b. split; [now right | exact H3]. }
    unfold shelter_distance in Hskip at 1.
    destruct (sh !! "lon") as [slon |] eqn:Elon; [| now apply Hskip].
    destruct (sh !! "lat") as [slat |] eqn:Elat; [| now apply Hskip].
    cbn [mbind option_bind] in Hskip.
    destruct (haversine_values haversine user_lon user_lat slon slat)
      as [d |] eqn:Ed; [| now apply Hskip].
    clear Hskip.
    assert (Hd : shelter_distance haversine user_lon user_lat sh = Some d).
    { unfold shelter_distance. rewrite Elon, Elat. exact Ed. }
    destruct (Float.ltb d bd) eqn:Hlt; intros Hloop;
      destruct (IH _ _ _ _ Hloop) as (H1 & H2 & H3).
    + split; [apply float_leb_trans with d; [exact H1 | now apply float_ltb_leb] |].
      split.
      * intros sh0 d0 [-> | Hin]%elem_of_cons Hd0; [| eauto].
        rewrite Hd in Hd0. injection Hd0 as <-. exact H1.
      * right. destruct H3 as [[-> ->] | (b & Hb & -> & Hbd & Hb')].
        -- exists sh. split; [left |]. auto.
        -- exists b. split; [now right |]. split; [reflexivity |].
           split; [exact Hbd |].
           now apply float_ltb_trans with d.
    + split; [exact H1 |]. split.
      * intros sh0 d0 [-> | Hin]%elem_of_cons Hd0; [| eauto].
        rewrite Hd in Hd0. injection Hd0 as <-.
        apply float_leb_trans with bd; [exact H1 |].
        now apply float_ltb_false_leb.
      * destruct H3 as [H3 | (b & Hb & H3)]; [now left | right].
        exists b. split; [now right | exact H3].
Qed.

End WithHaversine.

End RoutingFacts.
Import RoutingFacts.

(** ** validation.py and routing.py: shelters *)

(** X21.  [validate_shelter] never raises.  It accepts a shelter exactly
    when the dictionary has the keys id, name, lat, lon and capacity, the
    latitude and longitude are finite numbers within the configured bounds
    and the capacity is an integer above 0; a rejected shelter always
    comes with a message, an accepted one never. *)
Theorem validate_shelter_accepts_well_formed
    (shelter : gmap string py_value) :
  (∃ b m, Validation.validate_shelter shelter = Some (b, m)
          ∧ (b = true ↔ m = None))
  ∧ (Validation.validate_shelter shelter = Some (true, None)
     ↔ Validation.well_formed_shelter shelter).
Proof.
  split; [| apply validate_shelter_accepts].
  unfold Validation.validate_shelter. cbn [List.filter].
  destruct (shelter !! "id") as [vid |];
    destruct (shelter !! "name") as [vname |];
    destruct (shelter !! "lat") as [vlat |];
    destruct (shelter !! "lon") as [vlon |];
    destruct (shelter !! "capacity") as [vcap |];
    cbn;
    try (do 2 eexists; split; [reflexivity | split; discriminate]).
  pose proof (proj2 (validate_coordinates_accepts vlat vlon)) as Hm.
  destruct (Validation.validate_coordinates vlat vlon) as [[|] msg];
    cbn [fst snd negb] in *.
  - destruct (match Py.is_int vcap with
              | Some z => (z <=? 0)%Z
              | None => true
              end).
    + do 2 eexists. split; [reflexivity |]. split; discriminate.
    + do 2 eexists. split; [reflexivity |]. split; reflexivity.
  - do 2 eexists. split; [reflexivity |]. exact Hm.
Qed.



(** X23.  A non-empty list of shelters that all pass [validate_shelter]
    always yields a nearest shelter: if the distance function is finite on
    finite coordinates, [nearest_shelter] from a finite position returns one
    of the shelters with a finite distance and raises nothing. *)
Theorem nearest_shelter_of_validated_shelters
    (haversine : float → float → float → float → float)
    (user_lon user_lat : Q) (shelters : list (gmap string py_value)) :
  (∀ a b c d, ∃ q, haversine (Fin a) (Fin b) (Fin c) (Fin d) = Fin q) →
  shelters ≠ [] →
  (∀ sh, sh ∈ shelters → Validation.validate_shelter sh = Some (true, None)) →
  ∃ b q,
    Routing.nearest_shelter haversine (Fin user_lon) (Fin user_lat) shelters
    = Routing.Returns (Some b, Fin q)
    ∧ b ∈ shelters.
Proof.
  intros Hfin Hne Hvalid.
  assert (Hdist : ∀ sh, sh ∈ shelters →
            is_Some (sh !! "name")
            ∧ ∃ q, Routing.shelter_distance haversine (Fin user_lon)
                     (Fin user_lat) sh = Some (Fin q)).
  { intros sh Hin.
    apply Hvalid, validate_shelter_accepts in Hin
      as (_ & Hname & (lat & Hlat & x & Hx & _) & (lon & Hlon & y & Hy & _) & _).
    split; [exact Hname |].
    unfold Routing.shelter_distance, Routing.haversine_values.
    rewrite Hlon, Hlat. simpl.
    rewrite (number_is_number _ _ Hx), (number_is_number _ _ Hy), Hx, Hy.
    destruct (Hfin user_lon user_lat y x) as [q ->]. eauto. }
  unfold Routing.nearest_shelter.
  destruct shelters as [| sh0 rest]; [contradiction |].
  destruct (Routing.nearest_loop haversine (Fin user_lon) (Fin user_lat)
              (sh0 :: rest) None Inf) as [best bd] eqn:Hloop.
  destruct (nearest_loop_spec haversine _ _ _ _ _ _ _ Hloop)
    as (_ & Hmin & Hbest).
  destruct (Hdist sh0) as [_ [q0 Hq0]]; [left |].
  pose proof (Hmin sh0 _ (list_elem_of_here _ _) Hq0) as Hle.
  destruct Hbest as [[_ ->] | (b & Hb & -> & Hd & Hlt)]; [discriminate |].
  apply float_ltb_Inf in Hlt as [q ->].
  destruct (Hdist b Hb) as [[name Hname] _].
  exists b, q. split; [| exact Hb].
  rewrite Hname.
  destruct (bool_decide (b = ∅)); reflexivity.
Qed.

Lemma nearest_shelter_of_validated_shelters_witness :
  ∃ b q,
    Routing.nearest_shelter Scenario.grid_distance (Fin 76.267) (Fin 9.935)
      [Scenario.shelter_a; Scenario.shelter_b]
    = Routing.Returns (Some b, Fin q).
Proof.
  destruct (nearest_shelter_of_validated_shelters Scenario.grid_distance
              76.267 9.935 [Scenario.shelter_a; Scenario.shelter_b])
    as (b & q & H & _).
  - intros a b c d. simpl. eauto.
  - discriminate.
  - intros sh Hin.
    repeat (apply elem_of_cons in Hin as [-> | Hin];
            [vm_compute; reflexivity |]).
    inversion Hin.
  - eauto.
Defined.

(** ** Facts about routes and ranges *)

Module RouteFacts.
Import Routing.

Lemma mapM_ext_in {A B} (f g : A → option B) (l : list A) :
  (∀ x, x ∈ l → f x = g x) → mapM f l = mapM g l.
Proof.
  induction l as [| a l IH]; intros H; simpl; [reflexivity |].
  rewrite (H a) by left.
  rewrite IH; [reflexivity |]. intros x Hx. apply H. now right.
Qed.








End RouteFacts.
Import RouteFacts.

(** ** routing.py: routes *)





(** ** Facts about vessel positions *)

Module VesselFacts.
Import Vessels.

(** The point of one vessel at a step, as the loop body computes it. *)
Lemma vessel_point_at (v : Vessel.t) (step : Z) :
  Vessel.positions v ≠ [] →
  ∃ pos,
    Vessel.positions v
      !! Z.to_nat (step mod Z.of_nat (length (Vessel.positions v)))
    = Some pos
    ∧ (k ← py_mod step (Z.of_nat (length (Vessel.positions v)));
       pos ← py_index (Vessel.positions v) k;
       Some (VesselPoint.mk (Vessel.id v) (Vessel.name v) (Vessel.type v)
               pos.1 pos.2))
      = Some (VesselPoint.mk (Vessel.id v) (Vessel.name v) (Vessel.type v)
                pos.1 pos.2).
Proof.
  intros Hne.
  assert (Hlen : (0 < Z.of_nat (length (Vessel.positions v)))%Z).
  { destruct (Vessel.positions v); [contradiction | simpl; lia]. }
  pose proof (Z.mod_pos_bound step _ Hlen) as Hk.
  destruct (lookup_lt_is_Some_2 (Vessel.positions v)
              (Z.to_nat (step mod Z.of_nat (length (Vessel.positions v)))))
    as [pos Hpos]; [lia |].
  exists pos. split; [exact Hpos |].
  unfold py_mod, py_index.
  destruct (Z.eqb_spec (Z.of_nat (length (Vessel.positions v))) 0); [lia |].
  assert (E : (step mod Z.of_nat (length (Vessel.positions v)) <? 0)%Z = false)
    by (apply Z.ltb_ge; lia).
  cbn [mbind option_bind]. rewrite !E, Hpos. reflexivity.
Qed.

End VesselFacts.
Import VesselFacts.

(** ** vessels.py *)

(** X26.  When every vessel has at least one position,
    [get_positions_at_step] raises nothing for any step, negative ones
    included: it returns one point per vessel, in order, with the vessel's
    id, name and type and one of the vessel's own positions; and the paths
    loop, so adding a common multiple of the path lengths to the step gives
    the same points. *)
Theorem get_positions_at_step_loops
    (vessels : list Vessel.t) (step L : Z) :
  (∀ v, v ∈ vessels → Vessel.positions v ≠ []) →
  (∃ pts,
     Vessels.get_positions_at_step vessels step = Some pts
     ∧ length pts = length vessels
     ∧ ∀ i v p, vessels !! i = Some v → pts !! i = Some p →
                VesselPoint.id p = Vessel.id v
                ∧ VesselPoint.name p = Vessel.name v
                ∧ VesselPoint.type p = Vessel.type v
                ∧ (VesselPoint.lon p, VesselPoint.lat p) ∈ Vessel.positions v)
  ∧ ((∀ v, v ∈ vessels →
           (Z.of_nat (length (Vessel.positions v)) | L)%Z) →
     Vessels.get_positions_at_step vessels (step + L)
     = Vessels.get_positions_at_step vessels step).
Proof.
  intros Hne. split.
  - destruct (Vessels.get_positions_at_step vessels step) as [pts |] eqn:E.
    + exists pts. split; [reflexivity |].
      apply mapM_Some in E. split; [symmetry; eapply Forall2_length, E |].
      intros i v p Hv Hp.
      pose proof (Forall2_lookup_lr _ _ _ _ _ _ E Hv Hp) as Hf. simpl in Hf.
      destruct (vessel_point_at v step) as (pos & Hpos & Hbody).
      { apply Hne. eapply list_elem_of_lookup_2, Hv. }
      rewrite Hbody in Hf. injection Hf as <-. simpl.
      repeat split. destruct pos as [x y]. simpl.
      eapply list_elem_of_lookup_2, Hpos.
    + exfalso. apply mapM_None, Exists_exists in E as (v & Hv & Hf).
      destruct (vessel_point_at v step) as (pos & _ & Hbody).
      { apply Hne, Hv. }
      simpl in Hf. rewrite Hbody in Hf. discriminate.
  - intros Hdiv. unfold Vessels.get_positions_at_step.
    apply mapM_ext_in. intros v Hv.
    destruct (Hdiv v Hv) as [c ->].
    unfold Vessels.py_mod.
    destruct (Z.eqb_spec (Z.of_nat (length (Vessel.positions v))) 0);
      [reflexivity |].
    rewrite Z_mod_plus_full. reflexivity.
Qed.

Lemma get_positions_at_step_loops_witness :
  Vessels.get_positions_at_step Vessels.sample_vessel_positions (-1 + 5)
  = Vessels.get_positions_at_step Vessels.sample_vessel_positions (-1)
  ∧ ∃ pts,
      Vessels.get_positions_at_step Vessels.sample_vessel_positions (-1)
      = Some pts
      ∧ length pts = 3%nat.
Proof.
  destruct (get_positions_at_step_loops Vessels.sample_vessel_positions (-1) 5)
    as [(pts & Hpts & Hlen & _) Hloop].
  - intros v Hv.
    repeat (apply elem_of_cons in Hv as [-> | Hv]; [discriminate |]).
    inversion Hv.
  - split.
    + apply Hloop. intros v Hv.
      repeat (apply elem_of_cons in Hv as [-> | Hv]; [now exists 1%Z |]).
      inversion Hv.
    + exists pts. split; assumption.
Defined.

(** X27.  A vessel without positions makes [get_positions_at_step] raise
    (the [ZeroDivisionError] of [step % 0]), whatever the step and the other
    vessels. *)
Theorem get_positions_at_step_empty_path
    (vessels : list Vessel.t) (step : Z) (v : Vessel.t) :
  v ∈ vessels → Vessel.positions v = [] →
  Vessels.get_positions_at_step vessels step = None.
Proof.
  intros Hv Hempty. apply mapM_None, Exists_exists.
  exists v. split; [exact Hv |].
  rewrite Hempty. reflexivity.
Qed.

Lemma get_positions_at_step_empty_path_witness :
  Vessels.get_positions_at_step
    (Vessels.sample_vessel_positions ++ [Vessel.mk "V-104" "Ghost" "fishing" []])
    0 = None.
Proof.
  apply (get_positions_at_step_empty_path _ 0
           (Vessel.mk "V-104" "Ghost" "fishing" [])).
  - apply elem_of_app. right. left.
  - reflexivity.
Defined.

(** ** Facts about counting *)

Module CycloneFacts.
Import Cyclone.




End CycloneFacts.
Import CycloneFacts.

(** ** cyclone.py *)




(** ** Concrete instances of the properties above *)

Lemma register_observer_keeps_first_registration_witness :
  register_observer Scenario.clk Scenario.db_registered "F-001" "Somebody else"
    "farmer" 0 0
  = (true, Scenario.db_registered)
  ∧ Observer.name <$> Db.observers Scenario.db_registered !! "F-001"
    = Some "Ravi".
Proof.
  split.
  - apply (register_observer_keeps_first_registration Scenario.clk Scenario.clk
             Db.initial "F-001" "Ravi" "fisherman" "Somebody else" "farmer"
             19.0 72.8 0 0).
  - destruct (register_observer_keeps_first_registration Scenario.clk
                Scenario.clk Db.initial "F-001" "Ravi" "fisherman" "x" "y"
                19.0 72.8 0 0) as (_ & H & _).
    unfold Scenario.db_registered. rewrite H; [reflexivity |].
    apply lookup_empty.
Defined.

Lemma submit_observation_registered_witness :
  ∃ c', Db.observers Scenario.db_reported !! "F-001" = Some c'
        ∧ Observer.total_observations c' = 1%Z.
Proof.
  edestruct (submit_observation_registered Scenario.clk Scenario.db_registered
               "F-001" "anomalous_waves" "unusually high waves" (19.0, 72.8)
               "MODERATE" 0.123)
    as (_ & (c' & Hc' & Htot & _) & _).
  - vm_compute. reflexivity.
  - exists c'. split; [exact Hc' | exact Htot].
Defined.

Lemma submit_observation_new_row_witness :
  size (Db.observations Scenario.db_two_reports) = 2%nat
  ∧ ∃ x, Db.observations Scenario.db_two_reports !! 1%Z = Some x.
Proof.
  destruct (submit_observation_new_row Scenario.clk Scenario.db_reported
              "F-001" "anomalous_waves" "waves over the sea wall"
              (19.01, 72.81) "HIGH" 0.9) as (Hold & _ & Hsize & _).
  split.
  - unfold Scenario.db_two_reports. rewrite Hsize. vm_compute. reflexivity.
  - eexists. apply Hold. vm_compute. reflexivity.
Defined.

Lemma get_recent_observations_null_cutoff_witness :
  get_recent_observations Scenario.clk Scenario.db_scored 7 None 0.0 = []
  ∧ num_observations
      (calculate_indigenous_score_from_observations Scenario.clk
         Scenario.db_scored (19.0, 72.8) 24) = 1%Z.
Proof.
  split; [| vm_compute; reflexivity].
  destruct (get_recent_observations_null_cutoff Scenario.clk
              Scenario.db_scored 7 None 0.0) as [Hnull Hempty].
  apply Hempty. apply (Hnull (Sqlite.mk 2026 1 15 4 0 0)).
Defined.

Lemma unregistered_report_never_listed_witness :
  (calculate_observation_reliability
     (validate_observation Scenario.clk Scenario.db_anonymous 1 "elder" true
        0 "").2 1).1 = 0.0
  ∧ get_recent_observations Scenario.clk
      (calculate_observation_reliability
         (validate_observation Scenario.clk Scenario.db_anonymous 1 "elder"
            true 0 "").2 1).2
      7 None 0.3 = [].
Proof.
  edestruct (unregistered_report_never_listed Scenario.clk Scenario.clk
               Scenario.clk Db.initial "ghost" "tidal_anomaly"
               "tide did not recede" (19.0, 72.8) "HIGH" 0.7 "elder" 0 "" 7
               None 0.3) as [H _].
  - apply lookup_empty.
  - vm_compute. reflexivity.
  - split; [exact H | vm_compute; reflexivity].
Defined.

Lemma aggregator_reads_whole_cutoff_day_witness :
  earlier "2026-01-15T09:30:00.000000" "2026-01-15 20:00:00" = true
  ∧ calculate_indigenous_score_from_observations Scenario.clk_next_evening
      Scenario.db_scored (19.0, 72.8) 24 ≠ empty_score.
Proof.
  split; [vm_compute; reflexivity |].
  assert (Ho : ∃ o, Db.observations Scenario.db_scored !! 1%Z = Some o
                    ∧ Observation.validated o = 1%Z
                    ∧ Observation.location_lat o == 19.0
                    ∧ Observation.location_lon o == 72.8
                    ∧ Observation.timestamp o
                      = "2026-01-15" +:+ "T" +:+ "09:30:00.000000").
  { eexists. split; [vm_compute; reflexivity |].
    repeat split; vm_compute; reflexivity. }
  destruct Ho as (o & Ho & Hv & Hlat & Hlon & Hts).
  apply (aggregator_reads_whole_cutoff_day Scenario.clk_next_evening
           Scenario.db_scored (19.0, 72.8) 24 1 o
           "2026-01-15" "09:30:00.000000" "20:00:00" Ho Hv Hlat Hlon Hts).
  vm_compute. reflexivity.
Defined.

Lemma aggregator_confidence_from_count_witness :
  confidence
    (calculate_indigenous_score_from_observations Scenario.clk
       Scenario.db_scored (19.0, 72.8) 24)
  == 1 / 5.
Proof.
  destruct (aggregator_confidence_from_count Scenario.clk Scenario.db_scored
              (19.0, 72.8) 24) as (_ & _ & _ & H).
  rewrite H; [vm_compute; reflexivity | vm_compute; reflexivity].
Defined.

Lemma aggregator_scores_in_range_witness :
  0 <= total_indigenous_score
         (calculate_indigenous_score_from_observations Scenario.clk
            Scenario.db_scored (19.0, 72.8) 24) <= 1.
Proof.
  assert (Hrel : ∀ k o, Db.observations Scenario.db_scored !! k = Some o →
                        0 <= Observation.reliability_score o).
  { intros k o Ho. apply Qle_bool_iff. revert k o Ho.
    apply (bool_decide_unpack
             (map_Forall
                (λ _ o, Qle_bool 0 (Observation.reliability_score o) = true)
                (Db.observations Scenario.db_scored))).
    vm_compute. exact I. }
  destruct (aggregator_scores_in_range Scenario.clk Scenario.db_scored
              (19.0, 72.8) 24 Hrel) as [H _].
  exact H.
Defined.

